(** * chrome-runner: the process supervisor of [src/index.js]

    A shallow embedding of the [Runner] class and of the three exported
    launch functions.  The runner object and the host it talks to (file
    system, child processes, timers, the logger) are explicit state; every
    method is a function in a small state-and-exception monad.  Code of the
    sibling modules [./flags], [./util] and [./chrome-finder] is not part
    of [src/index.js]; what the runner imports from them is collected in
    the record [Env].

    An [async] method is run to its completion: the time it spends in
    [await] is accounted for (probes made, milliseconds slept), and the
    events of the host (a child closing, a timer firing) are delivered
    between method calls, as separate steps of a run.  A promise returned
    by [kill()] is a number, resolved when it enters [w_resolved].  The
    body of the ['SIGINT'] listener is not modelled, only its
    registration. *)

From Stdlib Require Import String Ascii List ZArith Arith Bool Lia DecimalString.
From Equations Require Import Equations.
Import ListNotations.

Local Open Scope string_scope.
Local Open Scope list_scope.

(** ** JavaScript values the runner handles *)

(** Template literals: [`${n}`] for an integer and for a possibly
    [undefined] field. *)
Definition show_Z (n : Z) : string := NilZero.string_of_int (Z.to_int n).

Definition show_port (p : option Z) : string :=
  match p with Some n => show_Z n | None => "undefined" end.

Definition show_field (v : option string) : string :=
  match v with Some s => s | None => "undefined" end.

(** Truthiness, as the [if (...)] tests of the source see it: a number is
    falsy when it is [undefined] or [0], a string when it is [undefined] or
    empty. *)
Definition truthy_num (v : option Z) : bool :=
  match v with Some n => negb (n =? 0)%Z | None => false end.

Definition truthy_str (v : option string) : bool :=
  match v with Some "" => false | Some _ => true | None => false end.

(** ** The imported modules and the host platform *)

Record Env := {
  DEFAULT_FLAGS : list string;          (* ./flags *)
  NOISE_FLAGS : list string;            (* ./flags *)
  platform : string;                    (* process.platform *)
  isPortOpen : nat -> bool;             (* ./util: outcome of the n-th probe *)
  getRandomPort : Z;                    (* ./util *)
  makeTmpDir : nat -> string;           (* ./util: path of the n-th directory *)
  chromeFinder : string -> list string; (* ./chrome-finder, per platform *)
  killError : Z -> option string        (* message when the kill request fails *)
}.

Definition isWindows (E : Env) : bool := String.eqb (platform E) "win32".

Definition SUPPORTED_PLATFORMS : list string := ["darwin"; "linux"; "win32"].

Definition supported (p : string) : bool :=
  existsb (String.eqb p) SUPPORTED_PLATFORMS.

(** ** The runner object *)

Record RunnerOptions := {
  opt_port : option Z;
  opt_chromePath : option string;
  opt_chromeFlags : option (list string)
}.

Record Runner := {
  port : option Z;
  chromePath : option string;
  chromeFlags : list string;
  tmpDirandPidFileReady : bool;
  chromeProcess : option Z;             (* the child process, by pid *)
  chromeDataDir : option string;
  chromeOutFile : option Z;             (* file descriptors *)
  chromeErrorFile : option Z;
  pidFile : option Z;
  restartUnexpectedChrome : bool
}.

(** [constructor(opts)]. *)
Definition new_Runner (opts : RunnerOptions) : Runner := {|
  port := opt_port opts;
  chromePath := opt_chromePath opts;
  chromeFlags := match opt_chromeFlags opts with Some l => l | None => [] end;
  tmpDirandPidFileReady := false;
  chromeProcess := None;
  chromeDataDir := None;
  chromeOutFile := None;
  chromeErrorFile := None;
  pidFile := None;
  restartUnexpectedChrome := true
|}.

(** [get flags()]. *)
Definition flags (E : Env) (r : Runner) : list string :=
  let flags := DEFAULT_FLAGS E ++
    [ "--remote-debugging-port=" ++ show_port (port r);
      "--user-data-dir=" ++ show_field (chromeDataDir r) ]%string in
  let flags :=
    if String.eqb (platform E) "linux"
    then flags ++ ["--disable-setuid-sandbox"] else flags in
  let flags := flags ++ chromeFlags r in
  flags ++ ["about:blank"].

(** ** The exported launch variants: how they build the runner

    [Object.assign({chromeFlags}, runnerOptions)] copies every own property
    of [runnerOptions] over the object literal, so a [chromeFlags] property
    of the caller replaces the one just computed. *)
Definition assign_chromeFlags (computed : list string) (o : RunnerOptions)
  : RunnerOptions := {|
  opt_port := opt_port o;
  opt_chromePath := opt_chromePath o;
  opt_chromeFlags :=
    match opt_chromeFlags o with
    | Some own => Some own
    | None => Some computed
    end
|}.

Definition launch_runner (o : RunnerOptions) : Runner := new_Runner o.

Definition launchWithoutNoise_runner (E : Env) (o : RunnerOptions) : Runner :=
  let chromeFlags := NOISE_FLAGS E in
  let chromeFlags :=
    match opt_chromeFlags o with
    | Some l => chromeFlags ++ l
    | None => chromeFlags
    end in
  new_Runner (assign_chromeFlags chromeFlags o).

Definition launchWithHeadless_runner (E : Env) (o : RunnerOptions) : Runner :=
  let chromeFlags := NOISE_FLAGS E ++ ["--headless"; "--disable-gpu"] in
  let chromeFlags :=
    match opt_chromeFlags o with
    | Some l => chromeFlags ++ l
    | None => chromeFlags
    end in
  new_Runner (assign_chromeFlags chromeFlags o).

(** ** The host: file system, child processes, timers, logger *)

Inductive Level := Info | Warn | Error.

(** What the runner does to the outside world, in program order. *)
Inductive Effect :=
| Log (l : Level) (message : string)                (* global.logger *)
| Mkdir (path : string)                             (* makeTmpDir() *)
| OpenAppend (path : string) (fd : Z)               (* fs.openSync(path, 'a') *)
| CloseFd (fd : Z)                                  (* fs.closeSync *)
| WriteFile (fd : Z) (data : string)                (* fs.writeFileSync *)
| Rimraf (path : string)                            (* rimraf.sync *)
| SpawnProc (file : string) (args : list string)
            (out err : option Z) (pid : Z)          (* child_process.spawn *)
| KillGroup (pid : Z)                               (* process.kill(-pid) *)
| Taskkill (pid : Z).                               (* execSync taskkill *)

(** The two closures the runner attaches to a child's ['close'] event. *)
Inductive Listener :=
| ExitWatcher                   (* handleChromeUnexpectedExit *)
| KillWaiter (promise : nat).   (* kill: destroyTmp(); resolve() *)

Record Proc := {
  closed : bool;                (* 'close' already emitted *)
  on_close : list Listener      (* in registration order *)
}.

Inductive Callback := CbSpawn.  (* this.spawn.bind(this) *)

Record World := {
  w_probes : nat;                   (* isPortOpen calls made *)
  w_elapsed : Z;                    (* milliseconds spent in delay() *)
  w_tmpdirs : nat;                  (* makeTmpDir calls made *)
  w_next_fd : Z;
  w_next_pid : Z;
  w_procs : list (Z * Proc);        (* ChildProcess objects, by pid *)
  w_sigint : nat;                   (* listeners of process 'SIGINT' *)
  w_timers : list (Z * Callback);   (* pending setTimeout calls *)
  w_promises : nat;                 (* promises created by kill() *)
  w_resolved : list nat;            (* of which resolved *)
  w_trace : list Effect
}.

Record State := { runner : Runner; world : World }.

(** Field updates. *)
Definition set_port v r := {|
  port := v; chromePath := chromePath r; chromeFlags := chromeFlags r;
  tmpDirandPidFileReady := tmpDirandPidFileReady r;
  chromeProcess := chromeProcess r; chromeDataDir := chromeDataDir r;
  chromeOutFile := chromeOutFile r; chromeErrorFile := chromeErrorFile r;
  pidFile := pidFile r; restartUnexpectedChrome := restartUnexpectedChrome r |}.

Definition set_chromePath v r := {|
  port := port r; chromePath := v; chromeFlags := chromeFlags r;
  tmpDirandPidFileReady := tmpDirandPidFileReady r;
  chromeProcess := chromeProcess r; chromeDataDir := chromeDataDir r;
  chromeOutFile := chromeOutFile r; chromeErrorFile := chromeErrorFile r;
  pidFile := pidFile r; restartUnexpectedChrome := restartUnexpectedChrome r |}.

Definition set_tmpDirandPidFileReady v r := {|
  port := port r; chromePath := chromePath r; chromeFlags := chromeFlags r;
  tmpDirandPidFileReady := v;
  chromeProcess := chromeProcess r; chromeDataDir := chromeDataDir r;
  chromeOutFile := chromeOutFile r; chromeErrorFile := chromeErrorFile r;
  pidFile := pidFile r; restartUnexpectedChrome := restartUnexpectedChrome r |}.

Definition set_chromeProcess v r := {|
  port := port r; chromePath := chromePath r; chromeFlags := chromeFlags r;
  tmpDirandPidFileReady := tmpDirandPidFileReady r;
  chromeProcess := v; chromeDataDir := chromeDataDir r;
  chromeOutFile := chromeOutFile r; chromeErrorFile := chromeErrorFile r;
  pidFile := pidFile r; restartUnexpectedChrome := restartUnexpectedChrome r |}.

Definition set_chromeDataDir v r := {|
  port := port r; chromePath := chromePath r; chromeFlags := chromeFlags r;
  tmpDirandPidFileReady := tmpDirandPidFileReady r;
  chromeProcess := chromeProcess r; chromeDataDir := v;
  chromeOutFile := chromeOutFile r; chromeErrorFile := chromeErrorFile r;
  pidFile := pidFile r; restartUnexpectedChrome := restartUnexpectedChrome r |}.

Definition set_chromeOutFile v r := {|
  port := port r; chromePath := chromePath r; chromeFlags := chromeFlags r;
  tmpDirandPidFileReady := tmpDirandPidFileReady r;
  chromeProcess := chromeProcess r; chromeDataDir := chromeDataDir r;
  chromeOutFile := v; chromeErrorFile := chromeErrorFile r;
  pidFile := pidFile r; restartUnexpectedChrome := restartUnexpectedChrome r |}.

Definition set_chromeErrorFile v r := {|
  port := port r; chromePath := chromePath r; chromeFlags := chromeFlags r;
  tmpDirandPidFileReady := tmpDirandPidFileReady r;
  chromeProcess := chromeProcess r; chromeDataDir := chromeDataDir r;
  chromeOutFile := chromeOutFile r; chromeErrorFile := v;
  pidFile := pidFile r; restartUnexpectedChrome := restartUnexpectedChrome r |}.

Definition set_pidFile v r := {|
  port := port r; chromePath := chromePath r; chromeFlags := chromeFlags r;
  tmpDirandPidFileReady := tmpDirandPidFileReady r;
  chromeProcess := chromeProcess r; chromeDataDir := chromeDataDir r;
  chromeOutFile := chromeOutFile r; chromeErrorFile := chromeErrorFile r;
  pidFile := v; restartUnexpectedChrome := restartUnexpectedChrome r |}.

Definition set_restartUnexpectedChrome v r := {|
  port := port r; chromePath := chromePath r; chromeFlags := chromeFlags r;
  tmpDirandPidFileReady := tmpDirandPidFileReady r;
  chromeProcess := chromeProcess r; chromeDataDir := chromeDataDir r;
  chromeOutFile := chromeOutFile r; chromeErrorFile := chromeErrorFile r;
  pidFile := pidFile r; restartUnexpectedChrome := v |}.

Definition set_probes v w := {|
  w_probes := v; w_elapsed := w_elapsed w; w_tmpdirs := w_tmpdirs w;
  w_next_fd := w_next_fd w; w_next_pid := w_next_pid w; w_procs := w_procs w;
  w_sigint := w_sigint w; w_timers := w_timers w; w_promises := w_promises w;
  w_resolved := w_resolved w; w_trace := w_trace w |}.

Definition set_elapsed v w := {|
  w_probes := w_probes w; w_elapsed := v; w_tmpdirs := w_tmpdirs w;
  w_next_fd := w_next_fd w; w_next_pid := w_next_pid w; w_procs := w_procs w;
  w_sigint := w_sigint w; w_timers := w_timers w; w_promises := w_promises w;
  w_resolved := w_resolved w; w_trace := w_trace w |}.

Definition set_tmpdirs v w := {|
  w_probes := w_probes w; w_elapsed := w_elapsed w; w_tmpdirs := v;
  w_next_fd := w_next_fd w; w_next_pid := w_next_pid w; w_procs := w_procs w;
  w_sigint := w_sigint w; w_timers := w_timers w; w_promises := w_promises w;
  w_resolved := w_resolved w; w_trace := w_trace w |}.

Definition set_next_fd v w := {|
  w_probes := w_probes w; w_elapsed := w_elapsed w; w_tmpdirs := w_tmpdirs w;
  w_next_fd := v; w_next_pid := w_next_pid w; w_procs := w_procs w;
  w_sigint := w_sigint w; w_timers := w_timers w; w_promises := w_promises w;
  w_resolved := w_resolved w; w_trace := w_trace w |}.

Definition set_next_pid v w := {|
  w_probes := w_probes w; w_elapsed := w_elapsed w; w_tmpdirs := w_tmpdirs w;
  w_next_fd := w_next_fd w; w_next_pid := v; w_procs := w_procs w;
  w_sigint := w_sigint w; w_timers := w_timers w; w_promises := w_promises w;
  w_resolved := w_resolved w; w_trace := w_trace w |}.

Definition set_procs v w := {|
  w_probes := w_probes w; w_elapsed := w_elapsed w; w_tmpdirs := w_tmpdirs w;
  w_next_fd := w_next_fd w; w_next_pid := w_next_pid w; w_procs := v;
  w_sigint := w_sigint w; w_timers := w_timers w; w_promises := w_promises w;
  w_resolved := w_resolved w; w_trace := w_trace w |}.

Definition set_sigint v w := {|
  w_probes := w_probes w; w_elapsed := w_elapsed w; w_tmpdirs := w_tmpdirs w;
  w_next_fd := w_next_fd w; w_next_pid := w_next_pid w; w_procs := w_procs w;
  w_sigint := v; w_timers := w_timers w; w_promises := w_promises w;
  w_resolved := w_resolved w; w_trace := w_trace w |}.

Definition set_timers v w := {|
  w_probes := w_probes w; w_elapsed := w_elapsed w; w_tmpdirs := w_tmpdirs w;
  w_next_fd := w_next_fd w; w_next_pid := w_next_pid w; w_procs := w_procs w;
  w_sigint := w_sigint w; w_timers := v; w_promises := w_promises w;
  w_resolved := w_resolved w; w_trace := w_trace w |}.

Definition set_promises v w := {|
  w_probes := w_probes w; w_elapsed := w_elapsed w; w_tmpdirs := w_tmpdirs w;
  w_next_fd := w_next_fd w; w_next_pid := w_next_pid w; w_procs := w_procs w;
  w_sigint := w_sigint w; w_timers := w_timers w; w_promises := v;
  w_resolved := w_resolved w; w_trace := w_trace w |}.

Definition set_resolved v w := {|
  w_probes := w_probes w; w_elapsed := w_elapsed w; w_tmpdirs := w_tmpdirs w;
  w_next_fd := w_next_fd w; w_next_pid := w_next_pid w; w_procs := w_procs w;
  w_sigint := w_sigint w; w_timers := w_timers w; w_promises := w_promises w;
  w_resolved := v; w_trace := w_trace w |}.

Definition set_trace v w := {|
  w_probes := w_probes w; w_elapsed := w_elapsed w; w_tmpdirs := w_tmpdirs w;
  w_next_fd := w_next_fd w; w_next_pid := w_next_pid w; w_procs := w_procs w;
  w_sigint := w_sigint w; w_timers := w_timers w; w_promises := w_promises w;
  w_resolved := w_resolved w; w_trace := v |}.

(** ** Exceptions and the monad of runner methods *)

Inductive Exn :=
| JsError (message : string)      (* new Error(message) *)
| PortClosed.                     (* the rejection of isPortOpen *)

Inductive Outcome (A : Type) :=
| Return (a : A)
| Throw (e : Exn).
Arguments Return {A} a.
Arguments Throw {A} e.

(** A method runs on the state and either returns or throws; the state it
    leaves behind is kept in both cases. *)
Definition M (A : Type) := State -> Outcome A * State.

Definition ret {A} (a : A) : M A := fun s => (Return a, s).

Definition bind {A B} (m : M A) (f : A -> M B) : M B := fun s =>
  match m s with
  | (Return a, s') => f a s'
  | (Throw e, s') => (Throw e, s')
  end.

Definition throw {A} (e : Exn) : M A := fun s => (Throw e, s).

Definition try_catch {A} (m : M A) (handler : Exn -> M A) : M A := fun s =>
  match m s with
  | (Return a, s') => (Return a, s')
  | (Throw e, s') => handler e s'
  end.

Declare Scope runner_scope.
Delimit Scope runner_scope with runner.
Notation "x <- m ;; k" := (bind m (fun x => k))
  (at level 61, m at next level, right associativity) : runner_scope.
Notation "m ;; k" := (bind m (fun _ => k))
  (at level 61, right associativity) : runner_scope.
Local Open Scope runner_scope.

Definition this : M Runner := fun s => (Return (runner s), s).

Definition host : M World := fun s => (Return (world s), s).

Definition update (f : Runner -> Runner) : M unit := fun s =>
  (Return tt, {| runner := f (runner s); world := world s |}).

Definition update_host (f : World -> World) : M unit := fun s =>
  (Return tt, {| runner := runner s; world := f (world s) |}).

Definition when (b : bool) (m : M unit) : M unit := if b then m else ret tt.

Definition emit (e : Effect) : M unit :=
  update_host (fun w => set_trace (w_trace w ++ [e]) w).

Definition logger (l : Level) (message : string) : M unit := emit (Log l message).

Definition message_of (e : Exn) : string :=
  match e with JsError m => m | PortClosed => "port closed" end.

(** ** Host primitives *)

Definition find_proc (pid : Z) (ps : list (Z * Proc)) : option Proc :=
  match find (fun e => (fst e =? pid)%Z) ps with
  | Some e => Some (snd e)
  | None => None
  end.

Definition map_proc (pid : Z) (f : Proc -> Proc) (ps : list (Z * Proc))
  : list (Z * Proc) :=
  map (fun e => if (fst e =? pid)%Z then (fst e, f (snd e)) else e) ps.

(** [child.on('close', l)]. *)
Definition on_close_add (pid : Z) (l : Listener) : M unit :=
  update_host (fun w =>
    set_procs (map_proc pid
      (fun p => {| closed := closed p; on_close := on_close p ++ [l] |})
      (w_procs w)) w).

(** [fs.openSync(path, 'a')]: a new descriptor. *)
Definition openSync (path : string) : M Z :=
  w <- host ;;
  let fd := w_next_fd w in
  update_host (set_next_fd (fd + 1)%Z) ;;
  emit (OpenAppend path fd) ;;
  ret fd.

(** [setTimeout(cb, ms)]. *)
Definition setTimeout (cb : Callback) (ms : Z) : M unit :=
  update_host (fun w => set_timers (w_timers w ++ [(ms, cb)]) w).

(** [await delay(ms)]. *)
Definition delay (ms : Z) : M unit :=
  update_host (fun w => set_elapsed (w_elapsed w + ms)%Z w).

(** A new promise, and [resolve()] on it. *)
Definition new_promise : M nat :=
  w <- host ;;
  update_host (set_promises (S (w_promises w))) ;;
  ret (w_promises w).

Definition resolve (k : nat) : M unit :=
  update_host (fun w => set_resolved (w_resolved w ++ [k]) w).

Section Supervisor.

Variable E : Env.

(** ** The methods of [Runner] *)

(** [isDebugReady()]: one reachability probe of [this.port]. *)
Definition isDebugReady : M unit :=
  w <- host ;;
  update_host (set_probes (S (w_probes w))) ;;
  if isPortOpen E (w_probes w) then ret tt else throw PortClosed.

(** The [poll] closure of [waitUntilReady()]; [retries] is the counter's
    value when the closure is entered. *)
Equations? poll (retries : nat) (s : State) : Outcome unit * State
  by wf (11 - retries) lt :=
  poll retries s with isDebugReady s => {
    | (Return _, s1) := logger Info "chrome already now" s1
    | (Throw err, s1) with lt_dec 10 (S retries) => {
        | left _ := (Throw err, s1)
        | right more := poll (S retries) (snd (delay 500 s1)) } }.
Proof.
  clear poll.
  do 11 (destruct retries as [|retries]; [cbn; lia|]).
  lia.
Qed.

Definition waitUntilReady : M unit :=
  logger Info "wait until chrome ready" ;;
  poll 0.

(** [prepare()]. *)
Definition prepare : M unit :=
  let platform := platform E in
  if negb (supported platform)
  then throw (JsError ("platform " ++ platform ++ " is not supported"))
  else
    w <- host ;;
    let dir := makeTmpDir E (w_tmpdirs w) in
    update_host (set_tmpdirs (S (w_tmpdirs w))) ;;
    emit (Mkdir dir) ;;
    update (set_chromeDataDir (Some dir)) ;;
    r <- this ;;
    fd <- openSync (show_field (chromeDataDir r) ++ "/chrome-out.log") ;;
    update (set_chromeOutFile (Some fd)) ;;
    r <- this ;;
    fd <- openSync (show_field (chromeDataDir r) ++ "/chrome-err.log") ;;
    update (set_chromeErrorFile (Some fd)) ;;
    r <- this ;;
    fd <- openSync (show_field (chromeDataDir r) ++ "/chrome.pid") ;;
    update (set_pidFile (Some fd)) ;;
    r <- this ;;
    logger Info ("created chrome data dir " ++ show_field (chromeDataDir r)) ;;
    update (set_tmpDirandPidFileReady true).

(** [handleSIGINT()]: one more listener on the program's ['SIGINT']. *)
Definition handleSIGINT : M unit :=
  update_host (fun w => set_sigint (S (w_sigint w)) w).

(** [handleChromeUnexpectedExit()]. *)
Definition handleChromeUnexpectedExit : M unit :=
  r <- this ;;
  match chromeProcess r with
  | Some pid => on_close_add pid ExitWatcher
  | None => ret tt
  end.

(** [child_process.spawn(file, args, {detached, stdio})]: the host starts a
    process and hands back its object; [file] must be a string. *)
Definition child_spawn (file : option string) (args : list string)
    (out err : option Z) : M Z :=
  match file with
  | None => throw (JsError "The file argument must be of type string")
  | Some f =>
      w <- host ;;
      let pid := w_next_pid w in
      update_host (set_next_pid (pid + 1)%Z) ;;
      update_host (fun w =>
        set_procs (w_procs w ++ [(pid, {| closed := false; on_close := [] |})]) w) ;;
      emit (SpawnProc f args out err pid) ;;
      ret pid
  end.

(** [fs.writeFileSync(file, data)] on a descriptor. *)
Definition writeFileSync (file : option Z) (data : string) : M unit :=
  match file with
  | Some fd => emit (WriteFile fd data)
  | None => throw (JsError "The file argument must be a string or a descriptor")
  end.

(** [spawn()]: the pid when a process is already tracked, [undefined]
    after a process was started and became ready. *)
Definition spawn : M (option Z) :=
  r <- this ;;
  match chromeProcess r with
  | Some pid =>
      logger Info ("chrome already running with pid " ++ show_Z pid ++ ".") ;;
      ret (Some pid)
  | None =>
      when (negb (truthy_num (port r)))
           (update (set_port (Some (getRandomPort E)))) ;;
      r <- this ;;
      pid <- child_spawn (chromePath r) (flags E r)
                         (chromeOutFile r) (chromeErrorFile r) ;;
      update (set_chromeProcess (Some pid)) ;;
      handleSIGINT ;;
      handleChromeUnexpectedExit ;;
      r <- this ;;
      writeFileSync (pidFile r) (show_Z pid) ;;
      logger Info ("chrome running with pid " ++ show_Z pid ++ " on port " ++
                   show_port (port r) ++ ".") ;;
      waitUntilReady ;;
      ret None
  end.

(** [destroyTmp()]. *)
Definition rimraf_sync (path : option string) : M unit :=
  match path with
  | Some p => emit (Rimraf p)
  | None => throw (JsError "rimraf: missing path")
  end.

Definition destroyTmp : M unit :=
  r <- this ;;
  match chromeOutFile r with
  | Some fd =>
      when (truthy_num (Some fd))
           (emit (CloseFd fd) ;; update (set_chromeOutFile None))
  | None => ret tt
  end ;;
  r <- this ;;
  match chromeErrorFile r with
  | Some fd =>
      when (truthy_num (Some fd))
           (emit (CloseFd fd) ;; update (set_chromeErrorFile None))
  | None => ret tt
  end ;;
  r <- this ;;
  rimraf_sync (chromeDataDir r).

(** The kill request of [kill()]: [taskkill] on Windows, a signal to the
    process group elsewhere; either may throw. *)
Definition kill_request (pid : Z) : M unit :=
  (if isWindows E then emit (Taskkill pid) else emit (KillGroup pid)) ;;
  match killError E pid with
  | Some m => throw (JsError m)
  | None => ret tt
  end.

(** [kill()]: returns its promise. *)
Definition kill : M nat :=
  update (set_restartUnexpectedChrome false) ;;
  k <- new_promise ;;
  r <- this ;;
  match chromeProcess r with
  | Some pid =>
      on_close_add pid (KillWaiter k) ;;
      logger Info "killing all Chrome Instances" ;;
      try_catch (kill_request pid)
        (fun err => logger Error ("chrome could not be killed " ++ message_of err)) ;;
      update (set_chromeProcess None) ;;
      ret k
  | None =>
      resolve k ;;
      ret k
  end.

(** What [launch()] resolves with. *)
Inductive LaunchValue :=
| ProbeValue      (* the value of isDebugReady() *)
| This.           (* the runner *)

(** The guarded call of [prepare()] in [launch()]. *)
Definition prepare_once : M unit :=
  r <- this ;;
  when (negb (tmpDirandPidFileReady r)) prepare.

(** [launch()] from the workspace guard on. *)
Definition launch_fresh : M LaunchValue :=
  prepare_once ;;
  r <- this ;;
  when (negb (truthy_str (chromePath r)))
       (match chromeFinder E (platform E) with
        | first :: _ => update (set_chromePath (Some first))
        | [] => throw (JsError "no chrome installations found")
        end) ;;
  spawn ;;
  ret This.

(** [launch()]. *)
Definition launch : M LaunchValue :=
  r <- this ;;
  adopted <-
    (if truthy_num (port r)
     then try_catch (isDebugReady ;; ret true)
            (fun _ =>
               logger Warn ("no chrome found on port " ++ show_port (port r) ++
                            ", launching a new Chrome.") ;;
               ret false)
     else ret false) ;;
  if adopted : bool then ret ProbeValue else launch_fresh.

(** ** Events delivered by the host *)

(** The body of one ['close'] listener. *)
Definition run_listener (l : Listener) : M unit :=
  match l with
  | ExitWatcher =>
      r <- this ;;
      when (restartUnexpectedChrome r)
           (update (set_chromeProcess None) ;;
            setTimeout CbSpawn 1000 ;;
            logger Warn "chrome exit unexpected, restart it")
  | KillWaiter k =>
      destroyTmp ;;
      resolve k
  end.

Fixpoint run_listeners (ls : list Listener) : M unit :=
  match ls with
  | [] => ret tt
  | l :: ls => run_listener l ;; run_listeners ls
  end.

(** The child [pid] closes: its listeners run, once, in order. *)
Definition emit_close (pid : Z) : M unit :=
  w <- host ;;
  match find_proc pid (w_procs w) with
  | Some p =>
      if closed p then ret tt
      else
        update_host (fun w =>
          set_procs (map_proc pid
            (fun p => {| closed := true; on_close := on_close p |})
            (w_procs w)) w) ;;
        run_listeners (on_close p)
  | None => ret tt
  end.

(** The oldest pending timer fires. *)
Definition fire_timer : M unit :=
  w <- host ;;
  match w_timers w with
  | (_, CbSpawn) :: rest =>
      update_host (set_timers rest) ;;
      spawn ;;
      ret tt
  | [] => ret tt
  end.

(** ** Runs of a session *)

Inductive Action :=
| DoLaunch
| DoSpawn
| DoKill
| DoClose (pid : Z)
| DoTimer.

Definition step (a : Action) (s : State) : State :=
  match a with
  | DoLaunch => snd (launch s)
  | DoSpawn => snd (spawn s)
  | DoKill => snd (kill s)
  | DoClose pid => snd (emit_close pid s)
  | DoTimer => snd (fire_timer s)
  end.

Definition run (acts : list Action) (s : State) : State :=
  fold_left (fun s a => step a s) acts s.

End Supervisor.

(** A host on which nothing has happened yet. *)
Definition fresh_world : World := {|
  w_probes := 0; w_elapsed := 0; w_tmpdirs := 0;
  w_next_fd := 3; w_next_pid := 1000; w_procs := [];
  w_sigint := 0; w_timers := []; w_promises := 0;
  w_resolved := []; w_trace := []
|}.

Definition session (o : RunnerOptions) : State :=
  {| runner := new_Runner o; world := fresh_world |}.

(** ** Vocabulary of the statements *)

(** The state [s] after [p] more probes, [ms] more milliseconds of
    [delay] and the effects [l]: all that readiness polling changes. *)
Definition polled (p : nat) (ms : Z) (l : list Effect) (s : State) : State :=
  {| runner := runner s;
     world := set_trace (w_trace (world s) ++ l)
                (set_elapsed (w_elapsed (world s) + ms)%Z
                   (set_probes (w_probes (world s) + p) (world s))) |}.

Definition ready_log : Effect := Log Info "chrome already now".

(** [m] keeps [P]: whether it returns or throws, the state it leaves
    satisfies [P] when the one it started from does. *)
Definition preserves {A} (P : State -> Prop) (m : M A) : Prop :=
  forall s, P s -> P (snd (m s)).

(** Effects that create something in the file system. *)
Definition is_creation (e : Effect) : bool :=
  match e with Mkdir _ | OpenAppend _ _ => true | _ => false end.

Definition creations (t : list Effect) : list Effect := filter is_creation t.

(** Effects that start a process. *)
Definition is_spawn (e : Effect) : bool :=
  match e with SpawnProc _ _ _ _ _ => true | _ => false end.

Definition spawns (t : list Effect) : list Effect := filter is_spawn t.

(** Effects of a teardown: closing descriptors, removing the workspace,
    asking the host to kill. *)
Definition is_teardown (e : Effect) : bool :=
  match e with
  | CloseFd _ | Rimraf _ | KillGroup _ | Taskkill _ => true
  | _ => false
  end.

Definition teardowns (t : list Effect) : list Effect := filter is_teardown t.

Definition is_watcher (l : Listener) : bool :=
  match l with ExitWatcher => true | KillWaiter _ => false end.

(** Exit-watchers attached to a child. *)
Definition watchers (p : Proc) : nat := length (filter is_watcher (on_close p)).

(** A session whose shutdown was requested and that tracks no process,
    with its pending timers and the processes it has started so far. *)
Definition shut (cp : option Z) (ts : list (Z * Callback)) (sp : list Effect)
    (s : State) : Prop :=
  restartUnexpectedChrome (runner s) = false /\
  chromeProcess (runner s) = cp /\
  w_timers (world s) = ts /\
  spawns (w_trace (world s)) = sp.

(** The session right after [prepare()] succeeded. *)
Definition prepared (E : Env) (s : State) : State :=
  let w := world s in
  let d := makeTmpDir E (w_tmpdirs w) in
  let fd := w_next_fd w in
  {| runner :=
       set_tmpDirandPidFileReady true
         (set_pidFile (Some (fd + 1 + 1)%Z)
            (set_chromeErrorFile (Some (fd + 1)%Z)
               (set_chromeOutFile (Some fd)
                  (set_chromeDataDir (Some d) (runner s)))));
     world :=
       set_trace
         (w_trace w ++
          [ Mkdir d;
            OpenAppend (d ++ "/chrome-out.log") fd;
            OpenAppend (d ++ "/chrome-err.log") (fd + 1)%Z;
            OpenAppend (d ++ "/chrome.pid") (fd + 1 + 1)%Z;
            Log Info ("created chrome data dir " ++ d) ])
         (set_next_fd (fd + 1 + 1 + 1)%Z
            (set_tmpdirs (S (w_tmpdirs w)) w)) |}.

(** The runner once [spawn()] has settled the port. *)
Definition with_port (E : Env) (r : Runner) : Runner :=
  if truthy_num (port r) then r else set_port (Some (getRandomPort E)) r.

(** The session when [spawn()], having started the executable [file] and
    written the pid to [fd], begins to wait for readiness. *)
Definition started (E : Env) (file : string) (fd : Z) (s : State) : State :=
  let w := world s in
  let r := with_port E (runner s) in
  let pid := w_next_pid w in
  {| runner := set_chromeProcess (Some pid) r;
     world :=
       set_trace
         (w_trace w ++
          [ SpawnProc file (flags E r) (chromeOutFile r) (chromeErrorFile r) pid;
            WriteFile fd (show_Z pid);
            Log Info ("chrome running with pid " ++ show_Z pid ++ " on port " ++
                      show_port (port r) ++ ".");
            Log Info "wait until chrome ready" ])
         (set_sigint (S (w_sigint w))
            (set_procs
               (map_proc pid
                  (fun p => {| closed := closed p;
                               on_close := on_close p ++ [ExitWatcher] |})
                  (w_procs w ++ [(pid, {| closed := false; on_close := [] |})]))
               (set_next_pid (pid + 1)%Z w))) |}.

(** The executable [launch()] settles on: the runner's own path when it
    has one, else the first installation found. *)
Definition resolve_path (E : Env) (r : Runner) : option string :=
  if truthy_str (chromePath r) then chromePath r
  else hd_error (chromeFinder E (platform E)).

Definition with_path (file : string) (r : Runner) : Runner :=
  if truthy_str (chromePath r) then r else set_chromePath (Some file) r.

(** The session [launch()] polls from when it had to prepare a workspace
    and start [file]. *)
Definition launched (E : Env) (file : string) (s : State) : State :=
  started E file (w_next_fd (world s) + 1 + 1)%Z
    {| runner := with_path file (runner (prepared E s));
       world := world (prepared E s) |}.

(** The session after the failed port probe at the head of [launch()]. *)
Definition warned (s : State) : State :=
  {| runner := runner s;
     world := set_trace
       (w_trace (world s) ++
        [Log Warn ("no chrome found on port " ++ show_port (port (runner s)) ++
                   ", launching a new Chrome.")])
       (set_probes (S (w_probes (world s))) (world s)) |}.

(** [s] is the session with which [launch()] on [s0] goes past its port
    test without adopting: [s0] itself when it has no port, [s0] after the
    failed probe and its warning otherwise. *)
Definition past_port_test (E : Env) (s0 s : State) : Prop :=
  (truthy_num (port (runner s0)) = false /\ s = s0) \/
  (truthy_num (port (runner s0)) = true /\
   isPortOpen E (w_probes (world s0)) = false /\
   s = warned s0).

(** A session that has neither prepared a workspace nor started a
    process. *)
Definition unstarted (s : State) : Prop :=
  tmpDirandPidFileReady (runner s) = false /\
  chromeProcess (runner s) = None.

(** A session whose workspace guard is set, with the workspace path it
    holds and what it has created in the file system so far. *)
Definition kept (d : option string) (c : list Effect) (n : nat) (s : State)
  : Prop :=
  tmpDirandPidFileReady (runner s) = true /\
  chromeDataDir (runner s) = d /\
  creations (w_trace (world s)) = c /\
  w_tmpdirs (world s) = n.

(** The stored port and executable path. *)
Definition endpoint (p : option Z) (path : option string) (s : State) : Prop :=
  port (runner s) = p /\ chromePath (runner s) = path.

(** What the kill request of [kill()] leaves in the trace. *)
Definition kill_effects (E : Env) (pid : Z) : list Effect :=
  (if isWindows E then Taskkill pid else KillGroup pid) ::
  match killError E pid with
  | Some m => [Log Error ("chrome could not be killed " ++ m)]
  | None => []
  end.

(** The session after [kill()] on the tracked process [pid] and the close
    event that follows: descriptors [out] and [err] closed, workspace [d]
    removed, the promise of [kill()] resolved. *)
Definition torn_down (E : Env) (pid : Z) (d : string) (out err : Z) (s : State)
  : State :=
  let w := world s in
  let k := w_promises w in
  {| runner :=
       set_chromeErrorFile None
         (set_chromeOutFile None
            (set_chromeProcess None
               (set_restartUnexpectedChrome false (runner s))));
     world :=
       set_resolved (w_resolved w ++ [k])
         (set_trace
            (w_trace w ++
             Log Info "killing all Chrome Instances" ::
             kill_effects E pid ++ [CloseFd out; CloseFd err; Rimraf d])
            (set_procs
               (map_proc pid
                  (fun p => {| closed := true; on_close := on_close p |})
                  (map_proc pid
                     (fun p => {| closed := closed p;
                                  on_close := on_close p ++ [KillWaiter k] |})
                     (w_procs w)))
               (set_promises (S k) w))) |}.

(** Registrations match the processes started: as many ['SIGINT']
    listeners as [spawn] effects and as child objects, whose pids are all
    below the next one, each child with exactly one exit-watcher. *)
Definition registered (s : State) : Prop :=
  w_sigint (world s) = length (spawns (w_trace (world s))) /\
  length (w_procs (world s)) = length (spawns (w_trace (world s))) /\
  Forall (fun e => (fst e < w_next_pid (world s))%Z /\ watchers (snd e) = 1)
         (w_procs (world s)).

(** ** Sample hosts and sessions *)

Definition sample_host (os : string) (probe : nat -> bool) : Env := {|
  DEFAULT_FLAGS := ["--disable-translate"; "--no-first-run"];
  NOISE_FLAGS := ["--mute-audio"];
  platform := os;
  isPortOpen := probe;
  getRandomPort := 9222;
  makeTmpDir := fun n => ("/tmp/chrome-" ++ show_Z (Z.of_nat n))%string;
  chromeFinder := fun _ => ["/usr/bin/google-chrome"];
  killError := fun _ => None
|}.

(** Probes: always answered, never answered, answered from the eleventh
    on. *)
Definition up : nat -> bool := fun _ => true.
Definition down : nat -> bool := fun _ => false.
Definition late : nat -> bool := fun n => Nat.leb 10 n.

Definition no_options : RunnerOptions :=
  {| opt_port := None; opt_chromePath := None; opt_chromeFlags := None |}.

Definition on_port (p : Z) : RunnerOptions :=
  {| opt_port := Some p; opt_chromePath := None; opt_chromeFlags := None |}.

Definition with_flags (l : list string) : RunnerOptions :=
  {| opt_port := None; opt_chromePath := None; opt_chromeFlags := Some l |}.

(** A browser that answers the first probe only. *)
Definition once : nat -> bool := fun n => Nat.eqb n 0.

(** A session launched on a Linux host whose browser answers at once. *)
Definition running_session : State :=
  snd (launch (sample_host "linux" up) (session no_options)).

(** ** The interrupt listener and the exit of the program

    [handleSIGINT()] registers [async () => { await this.kill();
    process.exit(130); }].  When the program receives the signal, every
    registered listener is called in turn and runs up to its [await]: the
    calls of [kill()] happen one after the other, each leaving a promise.
    A listener is resumed once its promise is resolved, and then ends the
    program; a promise already resolved resumes its listener before any
    further event of the host is delivered. *)

Record Program := {
  state : State;
  awaited : list nat;           (* promises the listeners wait for *)
  exit_code : option Z          (* set by process.exit *)
}.

Definition start (s : State) : Program :=
  {| state := s; awaited := []; exit_code := None |}.

Definition is_resolved (w : World) (k : nat) : bool :=
  existsb (Nat.eqb k) (w_resolved w).

(** The listeners that can be resumed are: [process.exit(130)]. *)
Definition settle (p : Program) : Program :=
  match exit_code p with
  | Some _ => p
  | None =>
      if existsb (is_resolved (world (state p))) (awaited p)
      then {| state := state p; awaited := awaited p; exit_code := Some 130%Z |}
      else p
  end.

(** One listener, up to its [await]. *)
Definition sigint_listener (E : Env) (p : Program) : Program :=
  match kill E (state p) with
  | (Return k, s') =>
      {| state := s'; awaited := awaited p ++ [k]; exit_code := exit_code p |}
  | (Throw _, s') =>
      {| state := s'; awaited := awaited p; exit_code := exit_code p |}
  end.

(** The program receives [SIGINT] while at least one listener is
    registered. *)
Definition sigint (E : Env) (p : Program) : Program :=
  match exit_code p with
  | Some _ => p
  | None =>
      settle (Nat.iter (w_sigint (world (state p))) (sigint_listener E) p)
  end.

(** A child closes while the program runs. *)
Definition child_closes (pid : Z) (p : Program) : Program :=
  match exit_code p with
  | Some _ => p
  | None =>
      settle {| state := snd (emit_close pid (state p));
                awaited := awaited p;
                exit_code := None |}
  end.

(** ** Further vocabulary *)

(** Effects that release the workspace. *)
Definition is_cleanup (e : Effect) : bool :=
  match e with CloseFd _ | Rimraf _ => true | _ => false end.

Definition cleanups (t : list Effect) : list Effect := filter is_cleanup t.

(** What has been written through descriptor [fd], a file opened for
    appending: the data of the writes, in order. *)
Fixpoint written (fd : Z) (t : list Effect) : string :=
  match t with
  | [] => ""
  | WriteFile fd' data :: t =>
      if (fd' =? fd)%Z then (data ++ written fd t)%string else written fd t
  | _ :: t => written fd t
  end.

(** The descriptors the session holds were handed out by the host, and
    neither a log descriptor nor a closed one is the pid file's. *)
Definition descriptors_kept (s : State) : Prop :=
  (forall fd, In (CloseFd fd) (w_trace (world s)) ->
     (fd < w_next_fd (world s))%Z /\ pidFile (runner s) <> Some fd) /\
  (forall fd, chromeOutFile (runner s) = Some fd ->
     (fd < w_next_fd (world s))%Z /\ pidFile (runner s) <> Some fd) /\
  (forall fd, chromeErrorFile (runner s) = Some fd ->
     (fd < w_next_fd (world s))%Z /\ pidFile (runner s) <> Some fd) /\
  (forall fd, pidFile (runner s) = Some fd -> (fd < w_next_fd (world s))%Z).

(** The caller's configuration as a session keeps it: the extra flags,
    and the port and the executable path once they are set. *)
Definition configured (fl : list string) (p : option Z) (path : option string)
    (s : State) : Prop :=
  chromeFlags (runner s) = fl /\
  (truthy_num p = true -> port (runner s) = p) /\
  (truthy_str path = true -> chromePath (runner s) = path).

(** While shutdown was not requested, the tracked process is in the
    table of children, open, with the exit-watcher as its only listener,
    and every other child has closed. *)
Definition watched (s : State) : Prop :=
  registered s /\
  (restartUnexpectedChrome (runner s) = true ->
   (forall pid,
      chromeProcess (runner s) = Some pid ->
      find_proc pid (w_procs (world s)) =
      Some {| closed := false; on_close := [ExitWatcher] |}) /\
   (forall pid p,
      find_proc pid (w_procs (world s)) = Some p ->
      closed p = true \/ chromeProcess (runner s) = Some pid)).

(** A session that tracks [pid] and starts nothing more. *)
Definition tracking (pid : Z) (sp : list Effect) (s : State) : Prop :=
  chromeProcess (runner s) = Some pid /\
  spawns (w_trace (world s)) = sp.

(** Further sample hosts: one with no browser installed, one on which
    the kill request is refused. *)
Definition bare_host (os : string) (probe : nat -> bool) : Env := {|
  DEFAULT_FLAGS := ["--disable-translate"; "--no-first-run"];
  NOISE_FLAGS := ["--mute-audio"];
  platform := os;
  isPortOpen := probe;
  getRandomPort := 9222;
  makeTmpDir := fun n => ("/tmp/chrome-" ++ show_Z (Z.of_nat n))%string;
  chromeFinder := fun _ => [];
  killError := fun _ => None
|}.

Definition refusing_host (os : string) (probe : nat -> bool) : Env := {|
  DEFAULT_FLAGS := ["--disable-translate"; "--no-first-run"];
  NOISE_FLAGS := ["--mute-audio"];
  platform := os;
  isPortOpen := probe;
  getRandomPort := 9222;
  makeTmpDir := fun n => ("/tmp/chrome-" ++ show_Z (Z.of_nat n))%string;
  chromeFinder := fun _ => ["/usr/bin/google-chrome"];
  killError := fun _ => Some "kill ESRCH"
|}.

(** The running session after its process exited and was restarted, after
    its process exited only, after it was killed and its process closed,
    and a session whose launch timed out. *)
Definition respawned_session : State :=
  run (sample_host "linux" up) [DoClose 1000%Z; DoTimer] running_session.

Definition exited_session : State :=
  run (sample_host "linux" up) [DoClose 1000%Z] running_session.

Definition stopped_session : State :=
  run (sample_host "linux" up) [DoKill; DoClose 1000%Z] running_session.

Definition timed_out_session : State :=
  snd (launch (sample_host "linux" down) (session no_options)).

(** * Properties *)

#[local] Arguments Z.mul : simpl never.
#[local] Arguments Z.add : simpl never.
#[local] Arguments Z.of_nat : simpl never.

(** ** The generated command line *)

Lemma remote_debugging_port_not_setuid p :
  ("--remote-debugging-port=" ++ p)%string <> "--disable-setuid-sandbox".
Proof. simpl. discriminate. Qed.

Lemma user_data_dir_not_setuid d :
  ("--user-data-dir=" ++ d)%string <> "--disable-setuid-sandbox".
Proof. simpl. discriminate. Qed.

Lemma flags_eq E r :
  flags E r =
  DEFAULT_FLAGS E ++
  [ ("--remote-debugging-port=" ++ show_port (port r))%string;
    ("--user-data-dir=" ++ show_field (chromeDataDir r))%string ] ++
  (if String.eqb (platform E) "linux" then ["--disable-setuid-sandbox"] else []) ++
  chromeFlags r ++ ["about:blank"].
Proof.
  unfold flags. destruct (String.eqb (platform E) "linux");
    repeat rewrite <- app_assoc; reflexivity.
Qed.

Lemma flags_user_data_dir E r :
  In ("--user-data-dir=" ++ show_field (chromeDataDir r))%string (flags E r).
Proof.
  rewrite flags_eq. apply in_or_app. right. right. left. reflexivity.
Qed.

(** C4, as amended.  The flag list is the baseline [DEFAULT_FLAGS], the
    port flag, the user-data-dir flag, [--disable-setuid-sandbox] when the
    platform is [linux], the caller's flags and a final [about:blank], in
    this order.  It therefore ends with [about:blank], contains both
    generated flags, and contains [--disable-setuid-sandbox] exactly when
    the platform is [linux] or the baseline or the caller's flags bring
    it. *)
Theorem flags_layout E r :
  flags E r =
    DEFAULT_FLAGS E ++
    [ ("--remote-debugging-port=" ++ show_port (port r))%string;
      ("--user-data-dir=" ++ show_field (chromeDataDir r))%string ] ++
    (if String.eqb (platform E) "linux" then ["--disable-setuid-sandbox"] else []) ++
    chromeFlags r ++ ["about:blank"]
  /\ last (flags E r) "" = "about:blank"
  /\ In ("--remote-debugging-port=" ++ show_port (port r))%string (flags E r)
  /\ In ("--user-data-dir=" ++ show_field (chromeDataDir r))%string (flags E r)
  /\ (In "--disable-setuid-sandbox" (flags E r) <->
      platform E = "linux" \/
      In "--disable-setuid-sandbox" (DEFAULT_FLAGS E) \/
      In "--disable-setuid-sandbox" (chromeFlags r)).
Proof.
  split; [apply flags_eq|].
  split.
  { unfold flags. apply last_last. }
  rewrite flags_eq.
  split; [apply in_or_app; right; left; reflexivity|].
  split; [rewrite <- flags_eq; apply flags_user_data_dir|].
  rewrite in_app_iff. simpl. rewrite in_app_iff, in_app_iff. simpl.
  pose proof (remote_debugging_port_not_setuid (show_port (port r))) as Hp.
  pose proof (user_data_dir_not_setuid (show_field (chromeDataDir r))) as Hd.
  destruct (String.eqb_spec (platform E) "linux") as [Hl|Hl]; simpl.
  - split; intros _; [left; exact Hl | right; right; right; left; left; reflexivity].
  - split.
    + intros [H|[H|[H|[[]|[H|[H|[]]]]]]];
        [right; left; exact H | contradiction | contradiction
        | right; right; exact H | discriminate H].
    + intros [H|[H|H]];
        [contradiction | left; exact H
        | right; right; right; right; left; exact H].
Qed.

(** ** The pre-configured launch variants *)

(** C6: when the caller supplies [chromeFlags], the runner built by
    [launchWithoutNoise] and by [launchWithHeadless] carries exactly the
    caller's flags: the noise-reduction set, [--headless] and
    [--disable-gpu] are computed and then overwritten.  Without caller
    flags the injected sets are kept. *)
Theorem launch_variants_chromeFlags E p path :
  (forall l,
     let o := {| opt_port := p; opt_chromePath := path; opt_chromeFlags := Some l |} in
     chromeFlags (launchWithoutNoise_runner E o) = l /\
     chromeFlags (launchWithHeadless_runner E o) = l) /\
  (let o := {| opt_port := p; opt_chromePath := path; opt_chromeFlags := None |} in
   chromeFlags (launchWithoutNoise_runner E o) = NOISE_FLAGS E /\
   chromeFlags (launchWithHeadless_runner E o) =
     NOISE_FLAGS E ++ ["--headless"; "--disable-gpu"]).
Proof. split; [intros l|]; split; reflexivity. Qed.

(** ** Readiness polling *)

Section Polling.

Variable E : Env.

Lemma poll_step r s :
  poll E r s =
  match isDebugReady E s with
  | (Return _, s1) => logger Info "chrome already now" s1
  | (Throw err, s1) =>
      if lt_dec 10 (S r) then (Throw err, s1)
      else poll E (S r) (snd (delay 500 s1))
  end.
Proof.
  rewrite poll_unfold_eq. unfold poll_unfold.
  destruct (isDebugReady E s) as [[a|e] s1]; simpl.
  - reflexivity.
  - destruct (lt_dec 10 (S r)); reflexivity.
Qed.

(** A probe that keeps failing: [poll] entered with counter [r] gives up
    at the probe that brings the counter to 11, having slept between
    probes only. *)
Lemma poll_all_fail k : forall r s,
  r + k = 10 ->
  (forall i, i <= k -> isPortOpen E (w_probes (world s) + i) = false) ->
  poll E r s = (Throw PortClosed, polled (S k) (500 * Z.of_nat k) [] s).
Proof.
  induction k as [|k IH]; intros r s Hr Hfail; rewrite poll_step;
    unfold isDebugReady, bind, host, update_host, throw; simpl;
    generalize (Hfail 0 (Nat.le_0_l _)); rewrite Nat.add_0_r; intros ->;
    destruct (lt_dec 10 (S r)) as [Hlt|Hge]; try lia.
  - destruct s as [rn w]; unfold polled; simpl. f_equal. f_equal.
    unfold set_trace, set_elapsed, set_probes; simpl.
    rewrite app_nil_r. destruct w; simpl. f_equal; lia.
  - rewrite IH; [| lia |].
    + destruct s as [rn w]; unfold polled; simpl. f_equal. f_equal.
      unfold set_trace, set_elapsed, set_probes; simpl.
      destruct w; simpl. f_equal; lia.
    + intros i Hi. simpl. rewrite <- Nat.add_succ_r. apply Hfail. lia.
Qed.

(** A probe that fails [k <= 10] times and then succeeds. *)
Lemma poll_succeeds_after k : forall r s,
  r + k <= 10 ->
  (forall i, i < k -> isPortOpen E (w_probes (world s) + i) = false) ->
  isPortOpen E (w_probes (world s) + k) = true ->
  poll E r s = (Return tt, polled (S k) (500 * Z.of_nat k) [ready_log] s).
Proof.
  induction k as [|k IH]; intros r s Hr Hfail Hok; rewrite poll_step;
    unfold isDebugReady, bind, host, update_host, throw; simpl.
  - rewrite Nat.add_0_r in Hok. rewrite Hok. simpl.
    destruct s as [rn w]; unfold polled, logger, emit, update_host; simpl.
    f_equal. f_equal.
    unfold set_trace, set_elapsed, set_probes; simpl.
    destruct w; simpl. f_equal; lia.
  - generalize (Hfail 0 (Nat.lt_0_succ _)); rewrite Nat.add_0_r; intros ->.
    destruct (lt_dec 10 (S r)) as [Hlt|Hge]; try lia.
    rewrite IH; [| lia | |].
    + destruct s as [rn w]; unfold polled; simpl. f_equal. f_equal.
      unfold set_trace, set_elapsed, set_probes; simpl.
      destruct w; simpl. f_equal; lia.
    + intros i Hi. simpl. rewrite <- Nat.add_succ_r. apply Hfail. lia.
    + simpl. rewrite <- Nat.add_succ_r. exact Hok.
Qed.

(** Whatever the probe does, polling returns, and it touches nothing but
    the probe count, the clock and the log. *)
Lemma poll_frame r s :
  exists p ms l,
    snd (poll E r s) = polled p ms l s /\ (l = [] \/ l = [ready_log]).
Proof.
  revert s. remember (11 - r) as n eqn:Hn. revert r Hn.
  induction n as [n IH] using lt_wf_ind. intros r Hn s.
  rewrite poll_step.
  unfold isDebugReady, bind, host, update_host, throw; simpl.
  destruct (isPortOpen E (w_probes (world s))); simpl.
  - exists 1, 0%Z, [ready_log]. split; [|right; reflexivity].
    destruct s as [rn w]; unfold polled; simpl. f_equal.
    unfold set_trace, set_elapsed, set_probes; simpl.
    destruct w; simpl. f_equal; lia.
  - destruct (lt_dec 10 (S r)) as [Hlt|Hge]; simpl.
    + exists 1, 0%Z, []. split; [|left; reflexivity].
      destruct s as [rn w]; unfold polled; simpl. f_equal.
      unfold set_trace, set_elapsed, set_probes; simpl.
      rewrite app_nil_r. destruct w; simpl. f_equal; lia.
    + match goal with |- context [poll E (S r) ?s1] =>
        destruct (IH (11 - S r) ltac:(lia) (S r) eq_refl s1)
          as (p & ms & l & Heq & Hl)
      end.
      rewrite Heq. exists (S p), (500 + ms)%Z, l. split; [|exact Hl].
      destruct s as [rn w]; unfold polled; simpl. f_equal.
      unfold set_trace, set_elapsed, set_probes; simpl.
      destruct w; simpl. f_equal; lia.
Qed.

End Polling.

(** ** Invariants of methods *)

Section Preservation.

Variable E : Env.

Lemma preserves_ret {A} P (a : A) : preserves P (ret a).
Proof. intros s H. exact H. Qed.

Lemma preserves_throw {A} P e : preserves P (@throw A e).
Proof. intros s H. exact H. Qed.

Lemma preserves_this P : preserves P this.
Proof. intros s H. exact H. Qed.

Lemma preserves_host P : preserves P host.
Proof. intros s H. exact H. Qed.

Lemma preserves_bind {A B} P (m : M A) (f : A -> M B) :
  preserves P m -> (forall a, preserves P (f a)) -> preserves P (bind m f).
Proof.
  intros Hm Hf s H. unfold bind. specialize (Hm s H).
  destruct (m s) as [[a|e] s1]; simpl in *.
  - apply Hf. exact Hm.
  - exact Hm.
Qed.

Lemma preserves_try_catch {A} P (m : M A) h :
  preserves P m -> (forall e, preserves P (h e)) -> preserves P (try_catch m h).
Proof.
  intros Hm Hh s H. unfold try_catch. specialize (Hm s H).
  destruct (m s) as [[a|e] s1]; simpl in *.
  - exact Hm.
  - apply Hh. exact Hm.
Qed.

Lemma preserves_when P b m : preserves P m -> preserves P (when b m).
Proof. intros Hm. destruct b; [exact Hm | apply preserves_ret]. Qed.

Lemma preserves_update P f :
  (forall r w, P {| runner := r; world := w |} ->
               P {| runner := f r; world := w |}) ->
  preserves P (update f).
Proof. intros Hf [r w] H. apply Hf. exact H. Qed.

Lemma preserves_update_host P f :
  (forall r w, P {| runner := r; world := w |} ->
               P {| runner := r; world := f w |}) ->
  preserves P (update_host f).
Proof. intros Hf [r w] H. apply Hf. exact H. Qed.

Lemma preserves_poll P r :
  (forall p ms l s, l = [] \/ l = [ready_log] -> P s -> P (polled p ms l s)) ->
  preserves P (poll E r).
Proof.
  intros HP s H. destruct (poll_frame E r s) as (p & ms & l & Heq & Hl).
  rewrite Heq. apply HP; assumption.
Qed.

End Preservation.

(** Structural steps of a preservation proof; what is left are the
    assignments and host calls. *)
Ltac preserve_step :=
  lazymatch goal with
  | |- preserves _ (bind _ _) => apply preserves_bind; [|intro]
  | |- preserves _ (ret _) => apply preserves_ret
  | |- preserves _ (throw _) => apply preserves_throw
  | |- preserves _ this => apply preserves_this
  | |- preserves _ host => apply preserves_host
  | |- preserves _ (when _ _) => apply preserves_when
  | |- preserves _ (try_catch _ _) => apply preserves_try_catch; [|intro]
  | |- preserves _ (update _) => apply preserves_update; intros ? ?
  | |- preserves _ (update_host _) => apply preserves_update_host; intros ? ?
  | |- preserves _ (poll _ _) => apply preserves_poll; intros ? ? ? [? ?] [?|?]
  | |- preserves _ (match ?x with _ => _ end) => destruct x
  end.

Ltac preserve_with unfolds := repeat (unfolds; preserve_step).

(** Running the monad's plumbing and the host calls on a given state. *)
Ltac run_methods :=
  repeat progress
    (cbv beta iota delta
       [bind this host update update_host ret throw when try_catch emit logger
        child_spawn handleSIGINT handleChromeUnexpectedExit writeFileSync
        waitUntilReady on_close_add openSync setTimeout delay new_promise
        resolve rimraf_sync];
     simpl).

(** ** Close events, restart and shutdown *)

Section Shutdown.

Variable E : Env.

Lemma spawns_snoc t e : is_spawn e = false -> spawns (t ++ [e]) = spawns t.
Proof.
  intros H. unfold spawns. rewrite filter_app. simpl. rewrite H.
  apply app_nil_r.
Qed.

Ltac host_calls :=
  unfold destroyTmp, rimraf_sync, resolve, setTimeout, logger, emit,
         kill_request, new_promise, on_close_add.

Ltac shut_field :=
  unfold shut in *; simpl in *;
  try rewrite spawns_snoc by reflexivity; tauto.

Lemma run_listener_shut cp ts sp l : preserves (shut cp ts sp) (run_listener l).
Proof.
  destruct l as [|k].
  - intros s H. unfold run_listener, bind, this. simpl.
    destruct H as (Hf & H). rewrite Hf. simpl. split; assumption.
  - unfold run_listener. preserve_with host_calls; shut_field.
Qed.

Lemma run_listeners_shut cp ts sp ls :
  preserves (shut cp ts sp) (run_listeners ls).
Proof.
  induction ls as [|l ls IH]; simpl.
  - apply preserves_ret.
  - apply preserves_bind; [apply run_listener_shut | intros _; exact IH].
Qed.

Lemma emit_close_shut cp ts sp pid : preserves (shut cp ts sp) (emit_close pid).
Proof.
  unfold emit_close. preserve_with idtac;
    try apply run_listeners_shut; shut_field.
Qed.

(** [kill()] requests shutdown before anything else, and leaves no
    tracked process behind. *)
Lemma kill_shuts s :
  restartUnexpectedChrome (runner (snd (kill E s))) = false /\
  chromeProcess (runner (snd (kill E s))) = None.
Proof.
  destruct s as [r w]. unfold kill, bind, update, new_promise, this, host,
    update_host. simpl.
  destruct (chromeProcess r) as [pid|] eqn:Hcp; simpl.
  - unfold on_close_add, logger, emit, try_catch, kill_request, bind,
      update_host, update. simpl.
    destruct (isWindows E); simpl; destruct (killError E pid); simpl;
      split; reflexivity.
  - split; [reflexivity | exact Hcp].
Qed.

(** C1.  A close event of the tracked process, carrying the exit-watcher
    that [spawn()] attached: while shutdown was not requested it clears
    the process handle and schedules one [spawn()] 1000 ms later, starting
    nothing itself.  [kill()] requests shutdown first, and once shutdown is
    requested no close event schedules a timer or starts a process. *)
Theorem exit_watcher_restart_policy s pid :
  (forall p,
     restartUnexpectedChrome (runner s) = true ->
     find_proc pid (w_procs (world s)) = Some p ->
     closed p = false ->
     on_close p = [ExitWatcher] ->
     fst (emit_close pid s) = Return tt /\
     chromeProcess (runner (snd (emit_close pid s))) = None /\
     w_timers (world (snd (emit_close pid s))) =
       w_timers (world s) ++ [(1000%Z, CbSpawn)] /\
     spawns (w_trace (world (snd (emit_close pid s)))) =
       spawns (w_trace (world s))) /\
  restartUnexpectedChrome (runner (snd (kill E s))) = false /\
  (restartUnexpectedChrome (runner s) = false ->
     restartUnexpectedChrome (runner (snd (emit_close pid s))) = false /\
     w_timers (world (snd (emit_close pid s))) = w_timers (world s) /\
     spawns (w_trace (world (snd (emit_close pid s)))) =
       spawns (w_trace (world s))).
Proof.
  split; [|split].
  - intros p Hflag Hfind Hopen Hls.
    unfold emit_close, bind, host. simpl. rewrite Hfind, Hopen. simpl.
    unfold update_host. simpl. rewrite Hls. simpl.
    unfold bind, this. simpl. rewrite Hflag. simpl.
    repeat split. apply spawns_snoc. reflexivity.
  - apply kill_shuts.
  - intros Hflag.
    assert (H : shut (chromeProcess (runner s)) (w_timers (world s))
                  (spawns (w_trace (world s))) s)
      by (repeat split; assumption).
    apply (emit_close_shut _ _ _ pid) in H.
    destruct H as (H1 & _ & H3 & H4). auto.
Qed.

(** What [kill()] does when no process is tracked: it requests shutdown,
    creates its promise and resolves it at once. *)
Lemma kill_untracked s :
  chromeProcess (runner s) = None ->
  kill E s =
  (Return (w_promises (world s)),
   {| runner := set_restartUnexpectedChrome false (runner s);
      world := set_resolved (w_resolved (world s) ++ [w_promises (world s)])
                 (set_promises (S (w_promises (world s))) (world s)) |}).
Proof.
  intros H. destruct s as [r w]. simpl in *.
  unfold kill, bind, update, new_promise, this, host, update_host. simpl.
  rewrite H. reflexivity.
Qed.

Lemma closes_shut cp ts sp pids : forall s,
  shut cp ts sp s -> shut cp ts sp (run E (map DoClose pids) s).
Proof.
  induction pids as [|pid pids IH]; intros s H; simpl.
  - exact H.
  - apply IH. apply emit_close_shut. exact H.
Qed.

(** C5.  [kill()] on a session that tracks no process returns a promise
    that is already resolved and does nothing else.  After a first
    [kill()], whether or not close events have been delivered since, a
    second [kill()] is of that kind: it returns normally, its promise is
    resolved at once, and it adds no effect, listener or timer. *)
Theorem kill_twice_is_safe s pids :
  (chromeProcess (runner s) = None ->
     fst (kill E s) = Return (w_promises (world s)) /\
     In (w_promises (world s)) (w_resolved (world (snd (kill E s)))) /\
     w_trace (world (snd (kill E s))) = w_trace (world s) /\
     w_procs (world (snd (kill E s))) = w_procs (world s)) /\
  (let s1 := run E (map DoClose pids) (snd (kill E s)) in
   let k := w_promises (world s1) in
   fst (kill E s1) = Return k /\
   In k (w_resolved (world (snd (kill E s1)))) /\
   w_trace (world (snd (kill E s1))) = w_trace (world s1) /\
   w_procs (world (snd (kill E s1))) = w_procs (world s1) /\
   w_timers (world (snd (kill E s1))) = w_timers (world s1) /\
   runner (snd (kill E s1)) = runner s1).
Proof.
  split.
  - intros H. rewrite (kill_untracked s H). simpl.
    repeat split. apply in_or_app. right. left. reflexivity.
  - intros s1 k.
    assert (Hs1 : shut None (w_timers (world s1)) (spawns (w_trace (world s1))) s1).
    { destruct (kill_shuts s) as (Hf & Hp).
      pose proof (closes_shut None _ _ pids (snd (kill E s))
                    (conj Hf (conj Hp (conj eq_refl eq_refl)))) as H.
      fold s1 in H. destruct H as (H1 & H2 & _).
      repeat split; assumption. }
    destruct Hs1 as (Hf & Hp & _).
    rewrite (kill_untracked s1 Hp). simpl.
    repeat split.
    + apply in_or_app. right. left. reflexivity.
    + destruct (runner s1); simpl in *. rewrite Hf. reflexivity.
Qed.

End Shutdown.

(** ** Preparation and spawn, step by step *)

Section Launching.

Variable E : Env.

#[local] Arguments String.append : simpl never.

Lemma prepare_supported s :
  supported (platform E) = true ->
  prepare E s = (Return tt, prepared E s).
Proof.
  intros H. unfold prepare. rewrite H. simpl.
  unfold bind, host, update_host, update, emit, openSync, this, ret, logger,
    emit, update_host, bind, prepared. simpl.
  repeat rewrite <- app_assoc. reflexivity.
Qed.

Lemma prepare_unsupported s :
  supported (platform E) = false ->
  prepare E s =
  (Throw (JsError ("platform " ++ platform E ++ " is not supported")), s).
Proof. intros H. unfold prepare. rewrite H. reflexivity. Qed.

Lemma prepare_once_ready s :
  tmpDirandPidFileReady (runner s) = true ->
  prepare_once E s = (Return tt, s).
Proof.
  intros H. unfold prepare_once, bind, this. simpl. rewrite H. reflexivity.
Qed.

(** C8.  On a supported platform [prepare()] returns after one directory
    creation and the opening of [chrome-out.log], [chrome-err.log] and
    [chrome.pid] in it, and nothing else in the file system, with the
    ready guard set; the guarded call of [launch()] then does nothing at
    all.  On an unsupported platform it throws and leaves the session,
    guard included, as it was. *)
Theorem prepare_workspace_once s :
  (supported (platform E) = true ->
     let d := makeTmpDir E (w_tmpdirs (world s)) in
     let fd := w_next_fd (world s) in
     let s' := snd (prepare E s) in
     fst (prepare E s) = Return tt /\
     w_trace (world s') =
       w_trace (world s) ++
       [ Mkdir d;
         OpenAppend (d ++ "/chrome-out.log") fd;
         OpenAppend (d ++ "/chrome-err.log") (fd + 1)%Z;
         OpenAppend (d ++ "/chrome.pid") (fd + 1 + 1)%Z;
         Log Info ("created chrome data dir " ++ d) ] /\
     w_tmpdirs (world s') = S (w_tmpdirs (world s)) /\
     tmpDirandPidFileReady (runner s') = true /\
     prepare_once E s' = (Return tt, s')) /\
  (supported (platform E) = false ->
     exists e, prepare E s = (Throw e, s)).
Proof.
  split.
  - intros H. rewrite (prepare_supported s H). simpl.
    repeat split.
  - intros H. rewrite (prepare_unsupported s H). eexists. reflexivity.
Qed.

(** [spawn()] on a session that tracks a process only logs. *)
Lemma spawn_tracked s pid :
  chromeProcess (runner s) = Some pid ->
  spawn E s =
  (Return (Some pid),
   {| runner := runner s;
      world := set_trace
        (w_trace (world s) ++
         [Log Info ("chrome already running with pid " ++ show_Z pid ++ ".")])
        (world s) |}).
Proof.
  intros H. unfold spawn, bind, this. simpl. rewrite H. reflexivity.
Qed.

(** [spawn()] on a session that tracks none, from the start of the child
    to the beginning of the wait. *)
Lemma spawn_starts s file fd :
  chromeProcess (runner s) = None ->
  chromePath (runner s) = Some file ->
  pidFile (runner s) = Some fd ->
  spawn E s = bind (poll E 0) (fun _ => ret None) (started E file fd s).
Proof.
  intros Hp Hf Hfd. destruct s as [r w]. simpl in *.
  unfold spawn at 1. unfold bind at 1. unfold this at 1. simpl.
  rewrite Hp. unfold started, with_port. simpl.
  destruct (truthy_num (port r)) eqn:Hport; simpl;
    run_methods; rewrite Hf; run_methods; rewrite Hfd; run_methods;
    repeat rewrite <- app_assoc; simpl; reflexivity.
Qed.

Lemma launch_fresh_unprepared s file :
  tmpDirandPidFileReady (runner s) = false ->
  supported (platform E) = true ->
  chromeProcess (runner s) = None ->
  resolve_path E (runner s) = Some file ->
  launch_fresh E s = bind (poll E 0) (fun _ => ret This) (launched E file s).
Proof.
  intros Hready Hsup Hproc Hpath.
  unfold launch_fresh, prepare_once.
  unfold bind at 1. unfold bind at 1. unfold this at 1.
  cbv beta iota. rewrite Hready. simpl negb. cbv beta iota delta [when].
  rewrite (prepare_supported s Hsup).
  unfold bind at 1. unfold this at 1. cbv beta iota.
  unfold resolve_path in Hpath. unfold launched, with_path.
  change (chromePath (runner (prepared E s))) with (chromePath (runner s)).
  destruct (truthy_str (chromePath (runner s))) eqn:Htruthy.
  - cbv beta iota delta [when negb]. unfold ret at 1. cbv beta iota.
    change {| runner := runner (prepared E s); world := world (prepared E s) |}
      with (prepared E s).
    unfold bind.
    rewrite (spawn_starts _ file (w_next_fd (world s) + 1 + 1)%Z);
      [ | simpl; assumption | simpl; assumption | reflexivity ].
    unfold bind, ret.
    match goal with |- context [poll E 0 ?S] =>
      destruct (poll E 0 S) as [[u|e] s1] end; reflexivity.
  - cbv beta iota delta [when negb].
    destruct (chromeFinder E (platform E)) as [|first rest];
      [discriminate Hpath|]. simpl in Hpath. injection Hpath as ->.
    unfold update at 1. cbv beta iota. unfold bind.
    rewrite (spawn_starts _ file (w_next_fd (world s) + 1 + 1)%Z);
      [ | simpl; assumption | reflexivity | reflexivity ].
    unfold bind, ret.
    match goal with |- context [poll E 0 ?S] =>
      destruct (poll E 0 S) as [[u|e] s1] end; reflexivity.
Qed.

(** The port probe at the head of [launch()]. *)
Lemma launch_adopts s :
  truthy_num (port (runner s)) = true ->
  isPortOpen E (w_probes (world s)) = true ->
  launch E s =
  (Return ProbeValue,
   {| runner := runner s;
      world := set_probes (S (w_probes (world s))) (world s) |}).
Proof.
  intros Hport Hopen. unfold launch, isDebugReady. run_methods.
  rewrite Hport. run_methods. rewrite Hopen. reflexivity.
Qed.

Lemma launch_falls_through s :
  truthy_num (port (runner s)) = true ->
  isPortOpen E (w_probes (world s)) = false ->
  launch E s =
  launch_fresh E
    {| runner := runner s;
       world := set_trace
         (w_trace (world s) ++
          [Log Warn ("no chrome found on port " ++ show_port (port (runner s)) ++
                     ", launching a new Chrome.")])
         (set_probes (S (w_probes (world s))) (world s)) |}.
Proof.
  intros Hport Hopen. unfold launch, isDebugReady.
  unfold bind at 1. unfold this at 1. cbv beta iota. rewrite Hport.
  unfold bind at 1. unfold try_catch, bind, host, update_host.
  cbv beta iota. rewrite Hopen. reflexivity.
Qed.

Lemma launch_without_port s :
  truthy_num (port (runner s)) = false ->
  launch E s = launch_fresh E s.
Proof.
  intros Hport. unfold launch.
  unfold bind at 1. unfold this at 1. cbv beta iota. rewrite Hport.
  reflexivity.
Qed.

Lemma launch_past_port_test s0 s :
  past_port_test E s0 s -> launch E s0 = launch_fresh E s.
Proof.
  intros [(Hport & ->) | (Hport & Hclosed & ->)].
  - apply launch_without_port. exact Hport.
  - apply launch_falls_through; assumption.
Qed.

Lemma waitUntilReady_poll s :
  waitUntilReady E s =
  poll E 0 {| runner := runner s;
              world := set_trace
                (w_trace (world s) ++ [Log Info "wait until chrome ready"])
                (world s) |}.
Proof. reflexivity. Qed.

Lemma polled_after_log p ms l e s :
  polled p ms l
    {| runner := runner s;
       world := set_trace (w_trace (world s) ++ [e]) (world s) |} =
  polled p ms (e :: l) s.
Proof.
  unfold polled. simpl. rewrite <- app_assoc. reflexivity.
Qed.

(** C2, as amended.  When the first ten probes of a wait fail, the
    eleventh decides: [waitUntilReady()] resolves if it succeeds and
    rejects with the probe's error if it fails, in both cases after
    exactly 11 probes and 10 sleeps of 500 ms, 5000 ms in all.  A
    [launch()] that goes past its port test on a session not started yet
    waits in this way and resolves with the runner, or rejects,
    accordingly. *)
Theorem readiness_budget s :
  (forall i, i < 10 -> isPortOpen E (w_probes (world s) + i) = false) ->
  waitUntilReady E s =
    (if isPortOpen E (w_probes (world s) + 10)
     then (Return tt,
           polled 11 5000 [Log Info "wait until chrome ready"; ready_log] s)
     else (Throw PortClosed,
           polled 11 5000 [Log Info "wait until chrome ready"] s)) /\
  w_probes (world (snd (waitUntilReady E s))) = w_probes (world s) + 11 /\
  w_elapsed (world (snd (waitUntilReady E s))) = (w_elapsed (world s) + 5000)%Z /\
  (forall s0 file,
     past_port_test E s0 s ->
     unstarted s0 ->
     supported (platform E) = true ->
     resolve_path E (runner s0) = Some file ->
     launch E s0 =
       (if isPortOpen E (w_probes (world s) + 10)
        then (Return This, polled 11 5000 [ready_log] (launched E file s))
        else (Throw PortClosed, polled 11 5000 [] (launched E file s))) /\
     w_probes (world (snd (launch E s0))) = w_probes (world s) + 11 /\
     w_elapsed (world (snd (launch E s0))) = (w_elapsed (world s) + 5000)%Z).
Proof.
  intros Hfail.
  assert (Hwait : waitUntilReady E s =
    (if isPortOpen E (w_probes (world s) + 10)
     then (Return tt,
           polled 11 5000 [Log Info "wait until chrome ready"; ready_log] s)
     else (Throw PortClosed,
           polled 11 5000 [Log Info "wait until chrome ready"] s))).
  { rewrite waitUntilReady_poll.
    destruct (isPortOpen E (w_probes (world s) + 10)) eqn:H11.
    - rewrite (poll_succeeds_after E 10); [| lia | exact Hfail | exact H11].
      rewrite polled_after_log. reflexivity.
    - rewrite (poll_all_fail E 10); [| lia |].
      + rewrite polled_after_log. reflexivity.
      + intros i Hi. simpl. destruct (Nat.eq_dec i 10) as [->|Hne];
          [exact H11 | apply Hfail; lia]. }
  split; [exact Hwait|].
  split; [rewrite Hwait; destruct (isPortOpen E _); reflexivity|].
  split; [rewrite Hwait; destruct (isPortOpen E _); reflexivity|].
  intros s0 file Hpast (Hready & Hproc) Hsup Hpath.
  assert (Hs : tmpDirandPidFileReady (runner s) = false /\
               chromeProcess (runner s) = None /\
               resolve_path E (runner s) = Some file).
  { destruct Hpast as [(_ & ->) | (_ & _ & ->)]; repeat split; assumption. }
  destruct Hs as (Hready' & Hproc' & Hpath').
  assert (Hlaunch : launch E s0 =
    (if isPortOpen E (w_probes (world s) + 10)
     then (Return This, polled 11 5000 [ready_log] (launched E file s))
     else (Throw PortClosed, polled 11 5000 [] (launched E file s)))).
  { rewrite (launch_past_port_test s0 s Hpast).
    rewrite (launch_fresh_unprepared s file Hready' Hsup Hproc' Hpath').
    unfold bind.
    destruct (isPortOpen E (w_probes (world s) + 10)) eqn:H11.
    - rewrite (poll_succeeds_after E 10); [reflexivity | lia | exact Hfail | exact H11].
    - rewrite (poll_all_fail E 10); [reflexivity | lia |].
      intros i Hi. simpl. destruct (Nat.eq_dec i 10) as [->|Hne];
        [exact H11 | apply Hfail; lia]. }
  split; [exact Hlaunch|].
  split; rewrite Hlaunch; destruct (isPortOpen E _); reflexivity.
Qed.

Lemma teardowns_snoc t e :
  is_teardown e = false -> teardowns (t ++ [e]) = teardowns t.
Proof.
  intros H. unfold teardowns. rewrite filter_app. simpl. rewrite H.
  apply app_nil_r.
Qed.

Lemma teardowns_polled p ms l s :
  l = [] \/ l = [ready_log] ->
  teardowns (w_trace (world (polled p ms l s))) = teardowns (w_trace (world s)).
Proof.
  intros [->| ->]; simpl; [rewrite app_nil_r; reflexivity|].
  apply teardowns_snoc. reflexivity.
Qed.

Lemma teardowns_started file fd s :
  teardowns (w_trace (world (started E file fd s))) =
  teardowns (w_trace (world s)).
Proof.
  simpl. unfold teardowns. rewrite filter_app. simpl. apply app_nil_r.
Qed.

Lemma teardowns_prepared s :
  teardowns (w_trace (world (prepared E s))) = teardowns (w_trace (world s)).
Proof.
  simpl. unfold teardowns. rewrite filter_app. simpl. apply app_nil_r.
Qed.

(** C9.  When all eleven probes of the wait fail, [spawn()] rejects with
    the session still holding the handle of the process it has just
    started: no kill was requested, no descriptor closed, no directory
    removed, and the workspace fields are untouched.  A [launch()] that
    went past its port test, prepared the workspace and started the
    process rejects in the same way, leaving the workspace ready and the
    process tracked. *)
Theorem readiness_timeout_keeps_process s file :
  chromeProcess (runner s) = None ->
  (forall i, i <= 10 -> isPortOpen E (w_probes (world s) + i) = false) ->
  (forall fd,
     chromePath (runner s) = Some file ->
     pidFile (runner s) = Some fd ->
     let s' := snd (spawn E s) in
     fst (spawn E s) = Throw PortClosed /\
     chromeProcess (runner s') = Some (w_next_pid (world s)) /\
     chromeProcess (runner s') <> chromeProcess (runner s) /\
     teardowns (w_trace (world s')) = teardowns (w_trace (world s)) /\
     spawns (w_trace (world s')) =
       spawns (w_trace (world s)) ++
       [SpawnProc file (flags E (with_port E (runner s)))
          (chromeOutFile (runner s)) (chromeErrorFile (runner s))
          (w_next_pid (world s))] /\
     tmpDirandPidFileReady (runner s') = tmpDirandPidFileReady (runner s) /\
     chromeDataDir (runner s') = chromeDataDir (runner s) /\
     chromeOutFile (runner s') = chromeOutFile (runner s) /\
     chromeErrorFile (runner s') = chromeErrorFile (runner s)) /\
  (forall s0,
     past_port_test E s0 s ->
     tmpDirandPidFileReady (runner s0) = false ->
     supported (platform E) = true ->
     resolve_path E (runner s0) = Some file ->
     let s' := snd (launch E s0) in
     fst (launch E s0) = Throw PortClosed /\
     chromeProcess (runner s') = Some (w_next_pid (world s0)) /\
     tmpDirandPidFileReady (runner s') = true /\
     teardowns (w_trace (world s')) = teardowns (w_trace (world s0))).
Proof.
  intros Hproc Hfail. split.
  - intros fd Hpath Hfd s'. subst s'.
    rewrite (spawn_starts s file fd Hproc Hpath Hfd). unfold bind.
    rewrite (poll_all_fail E 10); [| lia | exact Hfail].
    cbv beta iota. unfold fst, snd.
    split; [reflexivity|]. split; [reflexivity|].
    split; [simpl; rewrite Hproc; discriminate|].
    split; [rewrite teardowns_polled by (left; reflexivity);
            apply teardowns_started|].
    split.
    { simpl. rewrite app_nil_r. unfold spawns. rewrite filter_app. simpl.
      unfold with_port.
      destruct (truthy_num (port (runner s))); reflexivity. }
    unfold polled, started, with_port.
    destruct (truthy_num (port (runner s))); repeat split; reflexivity.
  - intros s0 Hpast Hready0 Hsup Hpath0 s'. subst s'.
    assert (Hs : tmpDirandPidFileReady (runner s) = false /\
                 resolve_path E (runner s) = Some file /\
                 w_next_pid (world s) = w_next_pid (world s0) /\
                 teardowns (w_trace (world s)) = teardowns (w_trace (world s0))).
    { destruct Hpast as [(_ & ->) | (_ & _ & ->)];
        repeat split; try assumption.
      simpl. apply teardowns_snoc. reflexivity. }
    destruct Hs as (Hready & Hpath & Hpid & Htear).
    rewrite (launch_past_port_test s0 s Hpast).
    rewrite (launch_fresh_unprepared s file Hready Hsup Hproc Hpath).
    unfold bind.
    rewrite (poll_all_fail E 10); [| lia | exact Hfail].
    cbv beta iota. unfold fst, snd.
    split; [reflexivity|]. split; [rewrite <- Hpid; reflexivity|].
    split.
    { unfold polled, launched, started, with_port, with_path. simpl.
      destruct (truthy_str (chromePath (runner s))); simpl;
        match goal with |- context [truthy_num ?p] =>
          destruct (truthy_num p) end; reflexivity. }
    rewrite teardowns_polled by (left; reflexivity).
    unfold launched. rewrite teardowns_started.
    etransitivity; [apply teardowns_prepared | exact Htear].
Qed.

(** C3.  With a port supplied (and not 0): if the single probe at the
    head of [launch()] succeeds, [launch()] resolves having done nothing
    but that probe, so no directory is created and no process started; if
    it fails, [launch()] logs one warning and carries on with the fresh
    launch without probing again first, which on a session not started yet
    creates the workspace once and starts one process. *)
Theorem launch_adopt_or_create s :
  truthy_num (port (runner s)) = true ->
  (isPortOpen E (w_probes (world s)) = true ->
     launch E s =
     (Return ProbeValue,
      {| runner := runner s;
         world := set_probes (S (w_probes (world s))) (world s) |})) /\
  (isPortOpen E (w_probes (world s)) = false ->
     launch E s = launch_fresh E (warned s) /\
     forall file,
       unstarted s ->
       supported (platform E) = true ->
       resolve_path E (runner s) = Some file ->
       let s' := snd (launch E s) in
       let d := makeTmpDir E (w_tmpdirs (world s)) in
       let fd := w_next_fd (world s) in
       creations (w_trace (world s')) =
         creations (w_trace (world s)) ++
         [ Mkdir d;
           OpenAppend (d ++ "/chrome-out.log") fd;
           OpenAppend (d ++ "/chrome-err.log") (fd + 1)%Z;
           OpenAppend (d ++ "/chrome.pid") (fd + 1 + 1)%Z ] /\
       w_tmpdirs (world s') = S (w_tmpdirs (world s)) /\
       exists args,
         spawns (w_trace (world s')) =
           spawns (w_trace (world s)) ++
           [SpawnProc file args (Some fd) (Some (fd + 1)%Z)
              (w_next_pid (world s))]).
Proof.
  intros Hport. split.
  - apply launch_adopts. exact Hport.
  - intros Hclosed.
    pose proof (launch_falls_through s Hport Hclosed) as Hl.
    change (launch E s = launch_fresh E (warned s)) in Hl.
    split; [exact Hl|].
    intros file (Hready & Hproc) Hsup Hpath s' d fd. subst s' d fd.
    rewrite Hl.
    rewrite (launch_fresh_unprepared (warned s) file Hready Hsup Hproc Hpath).
    unfold bind.
    destruct (poll_frame E 0 (launched E file (warned s)))
      as (p & ms & l & Heq & Hl').
    destruct (poll E 0 (launched E file (warned s))) as [[u|e] s1];
      simpl in Heq; subst s1; unfold fst, snd;
      (split; [| split; [reflexivity|]]).
    all: try (unfold creations; simpl; repeat rewrite filter_app; simpl;
              destruct Hl' as [-> | ->]; simpl;
              repeat rewrite app_nil_r; reflexivity).
    all: unfold spawns, polled, launched, started, with_port, with_path; simpl;
      destruct (truthy_str (chromePath (runner s))); simpl; rewrite Hport;
      simpl; eexists; repeat rewrite filter_app; simpl;
      destruct Hl' as [-> | ->]; simpl; repeat rewrite app_nil_r; reflexivity.
Qed.

End Launching.

(** ** The workspace guard across kill and relaunch *)

Section Workspace.

Variable E : Env.

#[local] Arguments String.append : simpl never.

Lemma creations_snoc t e :
  is_creation e = false -> creations (t ++ [e]) = creations t.
Proof.
  intros H. unfold creations. rewrite filter_app. simpl. rewrite H.
  apply app_nil_r.
Qed.

Ltac calls :=
  unfold destroyTmp, rimraf_sync, resolve, setTimeout, logger, emit,
         kill_request, new_promise, on_close_add, isDebugReady, child_spawn,
         handleSIGINT, handleChromeUnexpectedExit, writeFileSync,
         waitUntilReady.

Ltac kept_field :=
  unfold kept, endpoint, polled in *; simpl in *; subst;
  try rewrite app_nil_r;
  try rewrite creations_snoc by reflexivity; tauto.

Lemma run_listeners_kept d c n ls : preserves (kept d c n) (run_listeners ls).
Proof.
  induction ls as [|l ls IH]; simpl.
  - apply preserves_ret.
  - apply preserves_bind; [| intros _; exact IH].
    unfold run_listener. preserve_with calls; kept_field.
Qed.

Lemma run_listeners_endpoint p path ls :
  preserves (endpoint p path) (run_listeners ls).
Proof.
  induction ls as [|l ls IH]; simpl.
  - apply preserves_ret.
  - apply preserves_bind; [| intros _; exact IH].
    unfold run_listener. preserve_with calls; kept_field.
Qed.

Lemma emit_close_kept d c n pid : preserves (kept d c n) (emit_close pid).
Proof.
  unfold emit_close. preserve_with idtac;
    try apply run_listeners_kept; kept_field.
Qed.

Lemma emit_close_endpoint p path pid :
  preserves (endpoint p path) (emit_close pid).
Proof.
  unfold emit_close. preserve_with idtac;
    try apply run_listeners_endpoint; kept_field.
Qed.

Lemma kill_kept d c n : preserves (kept d c n) (kill E).
Proof. unfold kill. preserve_with calls; kept_field. Qed.

Lemma kill_endpoint p path : preserves (endpoint p path) (kill E).
Proof. unfold kill. preserve_with calls; kept_field. Qed.

Lemma prepare_once_kept d c n : preserves (kept d c n) (prepare_once E).
Proof.
  intros s H. rewrite prepare_once_ready; [exact H | apply H].
Qed.

Lemma spawn_kept d c n : preserves (kept d c n) (spawn E).
Proof. unfold spawn. preserve_with calls; kept_field. Qed.

Lemma launch_kept d c n : preserves (kept d c n) (launch E).
Proof.
  unfold launch, launch_fresh.
  preserve_with calls;
    try apply prepare_once_kept; try apply spawn_kept; kept_field.
Qed.

Lemma fire_timer_kept d c n : preserves (kept d c n) (fire_timer E).
Proof.
  unfold fire_timer. preserve_with calls; try apply spawn_kept; kept_field.
Qed.

Lemma find_proc_map_proc pid f ps p :
  find_proc pid ps = Some p ->
  find_proc pid (map_proc pid f ps) = Some (f p).
Proof.
  unfold find_proc, map_proc.
  induction ps as [|[q x] ps IH]; simpl; [discriminate|].
  destruct (q =? pid)%Z eqn:Hq; simpl; rewrite Hq.
  - intros H. injection H as ->. reflexivity.
  - exact IH.
Qed.

(** [kill()] on a tracked process, then the close of that process. *)
Lemma kill_then_close s pid p d out err :
  chromeProcess (runner s) = Some pid ->
  find_proc pid (w_procs (world s)) = Some p ->
  closed p = false ->
  on_close p = [ExitWatcher] ->
  chromeDataDir (runner s) = Some d ->
  chromeOutFile (runner s) = Some out -> out <> 0%Z ->
  chromeErrorFile (runner s) = Some err -> err <> 0%Z ->
  fst (kill E s) = Return (w_promises (world s)) /\
  emit_close pid (snd (kill E s)) = (Return tt, torn_down E pid d out err s).
Proof.
  intros Hproc Hfind Hopen Hls Hd Hout Hout0 Herr Herr0.
  destruct s as [r w]. simpl in *.
  apply Z.eqb_neq in Hout0, Herr0.
  assert (Hkill : kill E {| runner := r; world := w |} =
    (Return (w_promises w),
     {| runner := set_chromeProcess None (set_restartUnexpectedChrome false r);
        world :=
          set_trace
            (w_trace w ++
             Log Info "killing all Chrome Instances" :: kill_effects E pid)
            (set_procs
               (map_proc pid
                  (fun p => {| closed := closed p;
                               on_close := on_close p ++ [KillWaiter (w_promises w)] |})
                  (w_procs w))
               (set_promises (S (w_promises w)) w)) |})).
  { unfold kill, kill_request, kill_effects. run_methods. rewrite Hproc.
    run_methods.
    destruct (isWindows E); run_methods;
      destruct (killError E pid); run_methods;
      repeat rewrite <- app_assoc; reflexivity. }
  rewrite Hkill. split; [reflexivity|]. unfold snd.
  unfold emit_close. run_methods.
  rewrite (find_proc_map_proc pid _ _ p Hfind). simpl. rewrite Hopen, Hls.
  unfold run_listeners, run_listener, destroyTmp. run_methods.
  rewrite Hout. run_methods. rewrite Hout0. run_methods.
  rewrite Herr. run_methods. rewrite Herr0. run_methods.
  rewrite Hd. run_methods.
  unfold torn_down. simpl.
  repeat rewrite <- app_assoc. simpl. repeat rewrite <- app_assoc. reflexivity.
Qed.

Lemma launch_fresh_prepared s file fd :
  tmpDirandPidFileReady (runner s) = true ->
  chromeProcess (runner s) = None ->
  truthy_str (chromePath (runner s)) = true ->
  chromePath (runner s) = Some file ->
  pidFile (runner s) = Some fd ->
  launch_fresh E s = bind (poll E 0) (fun _ => ret This) (started E file fd s).
Proof.
  intros Hready Hproc Htruthy Hpath Hfd.
  unfold launch_fresh. unfold bind at 1.
  rewrite (prepare_once_ready E s Hready).
  unfold bind at 1. unfold this at 1. cbv beta iota. rewrite Htruthy.
  cbv beta iota delta [when negb]. unfold bind at 1. unfold ret at 1.
  cbv beta iota. unfold bind.
  rewrite (spawn_starts E s file fd Hproc Hpath Hfd). unfold bind, ret.
  destruct (poll E 0 (started E file fd s)) as [[u|e] s1]; reflexivity.
Qed.

Lemma with_port_workspace r :
  chromeDataDir (with_port E r) = chromeDataDir r /\
  chromeOutFile (with_port E r) = chromeOutFile r /\
  chromeErrorFile (with_port E r) = chromeErrorFile r.
Proof.
  unfold with_port. destruct (truthy_num (port r)); repeat split; reflexivity.
Qed.

Lemma spawns_polled_started p ms l file fd s :
  l = [] \/ l = [ready_log] ->
  spawns (w_trace (world (polled p ms l (started E file fd s)))) =
  spawns (w_trace (world s)) ++
  [SpawnProc file (flags E (with_port E (runner s)))
     (chromeOutFile (runner s)) (chromeErrorFile (runner s))
     (w_next_pid (world s))].
Proof.
  intros Hl. destruct (with_port_workspace (runner s)) as (_ & Ho & He).
  unfold spawns. simpl. rewrite Ho, He. repeat rewrite filter_app. simpl.
  destruct Hl as [-> | ->]; simpl; rewrite app_nil_r; reflexivity.
Qed.

(** A relaunch of a torn-down session starts a process on the workspace
    path that was removed. *)
Lemma relaunch_reuses_workspace s file fd d :
  tmpDirandPidFileReady (runner s) = true ->
  chromeProcess (runner s) = None ->
  chromeDataDir (runner s) = Some d ->
  chromeOutFile (runner s) = None ->
  chromeErrorFile (runner s) = None ->
  truthy_str (chromePath (runner s)) = true ->
  chromePath (runner s) = Some file ->
  pidFile (runner s) = Some fd ->
  (truthy_num (port (runner s)) = true ->
   isPortOpen E (w_probes (world s)) = false) ->
  exists args,
    spawns (w_trace (world (snd (launch E s)))) =
      spawns (w_trace (world s)) ++
      [SpawnProc file args None None (w_next_pid (world s))] /\
    In ("--user-data-dir=" ++ d)%string args.
Proof.
  intros Hready Hproc Hd Hout Herr Htruthy Hpath Hfd Hprobe.
  assert (Hin : forall r, chromeDataDir r = Some d ->
            In ("--user-data-dir=" ++ d)%string (flags E (with_port E r))).
  { intros r Hr. pose proof (flags_user_data_dir E (with_port E r)) as H.
    destruct (with_port_workspace r) as (Hd' & _). rewrite Hd', Hr in H.
    exact H. }
  destruct (truthy_num (port (runner s))) eqn:Hport.
  - rewrite (launch_falls_through E s Hport (Hprobe eq_refl)).
    match goal with |- context [launch_fresh E ?X] => set (s1 := X) end.
    rewrite (launch_fresh_prepared s1 file fd Hready Hproc Htruthy Hpath Hfd).
    unfold bind.
    destruct (poll_frame E 0 (started E file fd s1)) as (p & ms & l & Heq & Hl).
    destruct (poll E 0 (started E file fd s1)) as [[u|e] s2];
      simpl in Heq; subst s2; cbv beta iota delta [snd ret];
      rewrite (spawns_polled_started p ms l file fd s1 Hl);
      exists (flags E (with_port E (runner s1)));
      (split; [| apply Hin; exact Hd]);
      subst s1; simpl; rewrite Hout, Herr;
      rewrite spawns_snoc by reflexivity; reflexivity.
  - rewrite (launch_without_port E s Hport).
    rewrite (launch_fresh_prepared s file fd Hready Hproc Htruthy Hpath Hfd).
    unfold bind.
    destruct (poll_frame E 0 (started E file fd s)) as (p & ms & l & Heq & Hl).
    destruct (poll E 0 (started E file fd s)) as [[u|e] s2];
      simpl in Heq; subst s2; cbv beta iota delta [snd ret];
      rewrite (spawns_polled_started p ms l file fd s Hl);
      exists (flags E (with_port E (runner s)));
      (split; [| apply Hin; exact Hd]);
      rewrite Hout, Herr; reflexivity.
Qed.

(** C10.  [kill()] and the close event it waits for leave the workspace
    guard set and the stored port, executable path and workspace path as
    they were; a [launch()] after them therefore creates nothing in the
    file system.  On a running session they close both log descriptors,
    remove the workspace directory and clear the process handle, and the
    next [launch()] that has to start a process passes the removed
    workspace path as [--user-data-dir]. *)
Theorem kill_keeps_workspace_guard s pid :
  tmpDirandPidFileReady (runner s) = true ->
  let s2 := snd (emit_close pid (snd (kill E s))) in
  let s3 := snd (launch E s2) in
  tmpDirandPidFileReady (runner s2) = true /\
  port (runner s2) = port (runner s) /\
  chromePath (runner s2) = chromePath (runner s) /\
  chromeDataDir (runner s2) = chromeDataDir (runner s) /\
  creations (w_trace (world s2)) = creations (w_trace (world s)) /\
  creations (w_trace (world s3)) = creations (w_trace (world s2)) /\
  w_tmpdirs (world s3) = w_tmpdirs (world s) /\
  chromeDataDir (runner s3) = chromeDataDir (runner s) /\
  (forall p d out err file fd,
     chromeProcess (runner s) = Some pid ->
     find_proc pid (w_procs (world s)) = Some p ->
     closed p = false ->
     on_close p = [ExitWatcher] ->
     chromeDataDir (runner s) = Some d ->
     chromeOutFile (runner s) = Some out -> out <> 0%Z ->
     chromeErrorFile (runner s) = Some err -> err <> 0%Z ->
     truthy_str (chromePath (runner s)) = true ->
     chromePath (runner s) = Some file ->
     pidFile (runner s) = Some fd ->
     (truthy_num (port (runner s)) = true ->
      isPortOpen E (w_probes (world s)) = false) ->
     chromeProcess (runner s2) = None /\
     chromeOutFile (runner s2) = None /\
     chromeErrorFile (runner s2) = None /\
     w_trace (world s2) =
       w_trace (world s) ++
       Log Info "killing all Chrome Instances" ::
       kill_effects E pid ++ [CloseFd out; CloseFd err; Rimraf d] /\
     In (w_promises (world s)) (w_resolved (world s2)) /\
     exists args,
       spawns (w_trace (world s3)) =
         spawns (w_trace (world s2)) ++
         [SpawnProc file args None None (w_next_pid (world s))] /\
       In ("--user-data-dir=" ++ d)%string args).
Proof.
  intros Hready s2 s3.
  assert (Hk : kept (chromeDataDir (runner s)) (creations (w_trace (world s)))
                 (w_tmpdirs (world s)) s) by (repeat split; assumption).
  assert (He : endpoint (port (runner s)) (chromePath (runner s)) s)
    by (split; reflexivity).
  apply kill_kept, (emit_close_kept _ _ _ pid) in Hk. fold s2 in Hk.
  apply kill_endpoint, (emit_close_endpoint _ _ pid) in He. fold s2 in He.
  pose proof (launch_kept _ _ _ s2 Hk) as Hk3. fold s3 in Hk3.
  destruct Hk as (K1 & K2 & K3 & K4). destruct He as (E1 & E2).
  destruct Hk3 as (L1 & L2 & L3 & L4).
  repeat (split; [first [assumption | congruence]|]).
  intros p d out err file fd Hproc Hfind Hopen Hls Hd Hout Hout0 Herr Herr0
    Htruthy Hpath Hfd Hprobe.
  destruct (kill_then_close s pid p d out err Hproc Hfind Hopen Hls Hd
              Hout Hout0 Herr Herr0) as (_ & Hs2).
  assert (Heq : s2 = torn_down E pid d out err s)
    by (unfold s2; rewrite Hs2; reflexivity).
  split; [rewrite Heq; reflexivity|].
  split; [rewrite Heq; reflexivity|].
  split; [rewrite Heq; reflexivity|].
  split; [rewrite Heq; reflexivity|].
  split; [rewrite Heq; simpl; apply in_or_app; right; left; reflexivity|].
  replace (w_next_pid (world s)) with (w_next_pid (world s2))
    by (rewrite Heq; reflexivity).
  apply (relaunch_reuses_workspace s2 file fd d); rewrite Heq; simpl;
    first [assumption | reflexivity].
Qed.

End Workspace.

(** ** Registration of the interrupt handler and of the exit-watcher *)

Section Registration.

Variable E : Env.

#[local] Arguments String.append : simpl never.

Lemma length_map_proc pid g ps : length (map_proc pid g ps) = length ps.
Proof. unfold map_proc. apply length_map. Qed.

Lemma Forall_map_proc (Q : Z * Proc -> Prop) pid g ps :
  (forall q p, Q (q, p) -> Q (q, g p)) ->
  Forall Q ps -> Forall Q (map_proc pid g ps).
Proof.
  intros Hg H. unfold map_proc. apply Forall_map.
  induction H as [|[q p] ps Hq _ IH]; constructor; [|exact IH].
  simpl. destruct (q =? pid)%Z; [apply Hg|]; exact Hq.
Qed.

Lemma map_proc_fresh pid g ps p0 :
  Forall (fun e => (fst e < pid)%Z) ps ->
  map_proc pid g (ps ++ [(pid, p0)]) = ps ++ [(pid, g p0)].
Proof.
  intros H. unfold map_proc. rewrite map_app. simpl. rewrite Z.eqb_refl.
  f_equal. induction H as [|[q p] ps Hq _ IH]; simpl; [reflexivity|].
  simpl in Hq. destruct (q =? pid)%Z eqn:Heq; [apply Z.eqb_eq in Heq; lia|].
  rewrite IH. reflexivity.
Qed.

Lemma watchers_add_waiter p k :
  watchers {| closed := closed p; on_close := on_close p ++ [KillWaiter k] |} =
  watchers p.
Proof.
  unfold watchers. simpl. rewrite filter_app. simpl. rewrite app_nil_r.
  reflexivity.
Qed.

(** The host after a child was started and both handlers registered. *)
Lemma registered_child s s' :
  registered s ->
  w_sigint (world s') = S (w_sigint (world s)) ->
  w_procs (world s') =
    map_proc (w_next_pid (world s))
      (fun p => {| closed := closed p; on_close := on_close p ++ [ExitWatcher] |})
      (w_procs (world s) ++
       [(w_next_pid (world s), {| closed := false; on_close := [] |})]) ->
  w_next_pid (world s') = (w_next_pid (world s) + 1)%Z ->
  length (spawns (w_trace (world s'))) =
    S (length (spawns (w_trace (world s)))) ->
  registered s'.
Proof.
  intros (H1 & H2 & H3) Hsig Hprocs Hnext Hlen. unfold registered.
  rewrite Hsig, Hprocs, Hnext, Hlen.
  split; [congruence|].
  rewrite map_proc_fresh
    by (eapply Forall_impl; [|exact H3]; intros a Ha; apply Ha).
  split; [rewrite length_app; simpl; lia|].
  apply Forall_app. split.
  - eapply Forall_impl; [|exact H3]. intros a (Ha & Hb). split; [lia|exact Hb].
  - constructor; [|constructor]. simpl. split; [lia|reflexivity].
Qed.

Lemma find_proc_fresh pid ps p0 :
  Forall (fun e => (fst e < pid)%Z) ps ->
  find_proc pid (ps ++ [(pid, p0)]) = Some p0.
Proof.
  intros H. unfold find_proc.
  induction H as [|[q p] ps Hq _ IH]; simpl.
  - rewrite Z.eqb_refl. reflexivity.
  - simpl in Hq. destruct (q =? pid)%Z eqn:Heq;
      [apply Z.eqb_eq in Heq; lia | exact IH].
Qed.

(** The child [spawn()] starts is open and carries the exit-watcher and
    nothing else. *)
Lemma spawn_attaches_watcher s file fd :
  registered s ->
  find_proc (w_next_pid (world s)) (w_procs (world (started E file fd s))) =
  Some {| closed := false; on_close := [ExitWatcher] |}.
Proof.
  intros (_ & _ & H).
  assert (Hlt : Forall (fun e => (fst e < w_next_pid (world s))%Z)
                  (w_procs (world s)))
    by (eapply Forall_impl; [|exact H]; intros a Ha; apply Ha).
  simpl. rewrite (map_proc_fresh _ _ _ _ Hlt).
  apply find_proc_fresh. exact Hlt.
Qed.

Lemma spawn_registered : preserves registered (spawn E).
Proof.
  intros s H.
  destruct (chromeProcess (runner s)) as [pid|] eqn:Hproc.
  { rewrite (spawn_tracked E s pid Hproc). unfold registered in *. simpl in *.
    rewrite spawns_snoc by reflexivity. exact H. }
  destruct (chromePath (runner s)) as [file|] eqn:Hpath.
  - destruct (pidFile (runner s)) as [fd|] eqn:Hfd.
    + rewrite (spawn_starts E s file fd Hproc Hpath Hfd). unfold bind.
      destruct (poll_frame E 0 (started E file fd s)) as (p & ms & l & Heq & Hl).
      destruct (poll E 0 (started E file fd s)) as [[u|e] s1];
        simpl in Heq; subst s1; unfold snd, ret;
        (apply (registered_child s); [exact H | reflexivity.. |]);
        unfold spawns; simpl;
        repeat rewrite filter_app; simpl; destruct Hl as [-> | ->]; simpl;
        repeat rewrite length_app; simpl; lia.
    + unfold spawn. run_methods. rewrite Hproc.
      destruct (truthy_num (port (runner s))); run_methods; rewrite Hpath;
        run_methods; rewrite Hfd; run_methods;
        (apply (registered_child s); [exact H | reflexivity.. |]);
        unfold spawns; simpl;
        repeat rewrite filter_app; simpl; repeat rewrite length_app; simpl; lia.
  - unfold spawn. run_methods. rewrite Hproc.
    destruct (truthy_num (port (runner s))); run_methods; rewrite Hpath;
      run_methods; exact H.
Qed.

Ltac calls :=
  unfold destroyTmp, rimraf_sync, resolve, setTimeout, logger, emit,
         kill_request, new_promise, on_close_add, isDebugReady, openSync.

Ltac registered_field :=
  unfold registered; simpl;
  try rewrite spawns_snoc by reflexivity;
  try rewrite length_map_proc;
  first
    [ tauto
    | intros (? & ? & ?); split; [assumption|]; split; [assumption|];
      apply Forall_map_proc; [|assumption];
      intros ? ? (? & ?); simpl in *; split; [assumption|];
      first [rewrite watchers_add_waiter; assumption | assumption] ].

Lemma run_listeners_registered ls : preserves registered (run_listeners ls).
Proof.
  induction ls as [|l ls IH]; simpl.
  - apply preserves_ret.
  - apply preserves_bind; [| intros _; exact IH].
    unfold run_listener. preserve_with calls; registered_field.
Qed.

Lemma emit_close_registered pid : preserves registered (emit_close pid).
Proof.
  unfold emit_close. preserve_with idtac;
    try apply run_listeners_registered; registered_field.
Qed.

Lemma kill_registered : preserves registered (kill E).
Proof. unfold kill. preserve_with calls; registered_field. Qed.

Lemma launch_registered : preserves registered (launch E).
Proof.
  unfold launch, launch_fresh, prepare_once, prepare.
  preserve_with calls; try apply spawn_registered; registered_field.
Qed.

Lemma fire_timer_registered : preserves registered (fire_timer E).
Proof.
  unfold fire_timer.
  preserve_with calls; try apply spawn_registered; registered_field.
Qed.

Lemma step_registered a s : registered s -> registered (step E a s).
Proof.
  destruct a; simpl.
  - apply launch_registered.
  - apply spawn_registered.
  - apply kill_registered.
  - apply emit_close_registered.
  - apply fire_timer_registered.
Qed.

Lemma run_registered acts : forall s, registered s -> registered (run E acts s).
Proof.
  induction acts as [|a acts IH]; intros s H; simpl; [exact H|].
  apply IH, step_registered, H.
Qed.

(** C7, as amended.  Over any run of a new session (launches, direct
    [spawn()] calls, kills, close events, restart timers) there are as many
    interrupt handlers as processes started, and every process carries
    exactly one exit-watcher: both are registered once per process started,
    not once per session.  A [spawn()] that finds a tracked process
    registers neither. *)
Theorem handlers_registered_per_process o acts :
  let s := run E acts (session o) in
  w_sigint (world s) = length (spawns (w_trace (world s))) /\
  length (w_procs (world s)) = length (spawns (w_trace (world s))) /\
  Forall (fun e => watchers (snd e) = 1) (w_procs (world s)) /\
  (forall pid,
     chromeProcess (runner s) = Some pid ->
     w_sigint (world (snd (spawn E s))) = w_sigint (world s) /\
     w_procs (world (snd (spawn E s))) = w_procs (world s)).
Proof.
  intros s.
  assert (H : registered s).
  { apply run_registered. repeat split. constructor. }
  destruct H as (H1 & H2 & H3).
  split; [exact H1|]. split; [exact H2|]. split.
  - eapply Forall_impl; [|exact H3]. intros a Ha. apply Ha.
  - intros pid Hpid. rewrite (spawn_tracked E s pid Hpid). split; reflexivity.
Qed.

End Registration.

(** * Further properties of the supervisor *)

(** ** [kill()], [destroyTmp()] and the interrupt *)

Section Interrupt.

Variable E : Env.

#[local] Arguments String.append : simpl never.

(** [kill()] on a tracked process, whatever the host answers to the kill
    request. *)
Lemma kill_tracked s pid :
  chromeProcess (runner s) = Some pid ->
  kill E s =
  (Return (w_promises (world s)),
   {| runner := set_chromeProcess None
                  (set_restartUnexpectedChrome false (runner s));
      world :=
        set_trace
          (w_trace (world s) ++
           Log Info "killing all Chrome Instances" :: kill_effects E pid)
          (set_procs
             (map_proc pid
                (fun p => {| closed := closed p;
                             on_close := on_close p ++
                                         [KillWaiter (w_promises (world s))] |})
                (w_procs (world s)))
             (set_promises (S (w_promises (world s))) (world s))) |}).
Proof.
  intros Hproc. unfold kill, kill_request, kill_effects. run_methods.
  rewrite Hproc. run_methods.
  destruct (isWindows E); run_methods;
    destruct (killError E pid); run_methods;
    repeat rewrite <- app_assoc; reflexivity.
Qed.

(** X1.  [kill()] never throws.  On a tracked process it asks the host once
    to kill, as the platform has it; a refusal is logged, not raised, and
    either way the handle is cleared, the waiter for the close event is
    attached and the promise is left pending. *)
Theorem kill_never_throws s :
  fst (kill E s) = Return (w_promises (world s)) /\
  chromeProcess (runner (snd (kill E s))) = None /\
  (forall pid,
     chromeProcess (runner s) = Some pid ->
     teardowns (w_trace (world (snd (kill E s)))) =
       teardowns (w_trace (world s)) ++
       [if isWindows E then Taskkill pid else KillGroup pid] /\
     (forall m, killError E pid = Some m ->
        In (Log Error ("chrome could not be killed " ++ m))
           (w_trace (world (snd (kill E s))))) /\
     w_resolved (world (snd (kill E s))) = w_resolved (world s) /\
     (forall p, find_proc pid (w_procs (world s)) = Some p ->
        find_proc pid (w_procs (world (snd (kill E s)))) =
        Some {| closed := closed p;
                on_close := on_close p ++ [KillWaiter (w_promises (world s))] |})).
Proof.
  destruct (chromeProcess (runner s)) as [pid|] eqn:Hproc.
  - rewrite (kill_tracked s pid Hproc). simpl.
    split; [reflexivity|]. split; [reflexivity|].
    intros pid' Hpid. injection Hpid as <-.
    split.
    { unfold teardowns, kill_effects. rewrite filter_app. simpl.
      destruct (isWindows E); destruct (killError E pid); reflexivity. }
    split.
    { intros m Hm. apply in_or_app. right. right. unfold kill_effects.
      rewrite Hm. right. left. reflexivity. }
    split; [reflexivity|].
    intros p Hfind. rewrite (find_proc_map_proc pid _ _ p Hfind). reflexivity.
  - rewrite (kill_untracked E s Hproc). simpl.
    split; [reflexivity|]. split; [exact Hproc|].
    intros pid Hpid. discriminate Hpid.
Qed.

(** X2.  [destroyTmp()] can be called again: what the first call closed it
    forgot, so the second call closes nothing and only removes the
    directory once more. *)
Theorem destroyTmp_twice s d :
  chromeDataDir (runner s) = Some d ->
  fst (destroyTmp s) = Return tt /\
  destroyTmp (snd (destroyTmp s)) =
    (Return tt,
     {| runner := runner (snd (destroyTmp s));
        world := set_trace (w_trace (world (snd (destroyTmp s))) ++ [Rimraf d])
                   (world (snd (destroyTmp s))) |}).
Proof.
  intros Hd. unfold destroyTmp. run_methods.
  destruct (chromeOutFile (runner s)) as [out|] eqn:Hout; run_methods;
    [destruct (out =? 0)%Z eqn:Hout0; run_methods|];
    (destruct (chromeErrorFile (runner s)) as [err|] eqn:Herr; run_methods;
     [destruct (err =? 0)%Z eqn:Herr0; run_methods|]);
    repeat match goal with
           | H : _ = _ |- _ => rewrite H; run_methods
           end;
    split; reflexivity.
Qed.

Lemma kill_returns s : fst (kill E s) = Return (w_promises (world s)).
Proof.
  destruct (chromeProcess (runner s)) as [pid|] eqn:Hproc.
  - rewrite (kill_tracked s pid Hproc). reflexivity.
  - rewrite (kill_untracked E s Hproc). reflexivity.
Qed.

Lemma sigint_listener_eq p :
  sigint_listener E p =
  {| state := snd (kill E (state p));
     awaited := awaited p ++ [w_promises (world (state p))];
     exit_code := exit_code p |}.
Proof.
  unfold sigint_listener. pose proof (kill_returns (state p)) as H.
  destruct (kill E (state p)) as [[k|e] s']; simpl in H.
  - injection H as ->. reflexivity.
  - discriminate H.
Qed.

Lemma cleanups_snoc t e :
  is_cleanup e = false -> cleanups (t ++ [e]) = cleanups t.
Proof.
  intros H. unfold cleanups. rewrite filter_app. simpl. rewrite H.
  apply app_nil_r.
Qed.

Lemma kill_cleanups c :
  preserves (fun s => cleanups (w_trace (world s)) = c) (kill E).
Proof.
  unfold kill.
  preserve_with ltac:(unfold resolve, logger, emit, kill_request,
                        new_promise, on_close_add);
    simpl; try rewrite cleanups_snoc by reflexivity; tauto.
Qed.

Lemma listeners_run n s :
  let p := Nat.iter n (sigint_listener E) (start s) in
  exit_code p = None /\
  cleanups (w_trace (world (state p))) = cleanups (w_trace (world s)) /\
  (chromeProcess (runner s) = None \/ 1 <= n ->
   chromeProcess (runner (state p)) = None).
Proof.
  induction n as [|n IH]; simpl.
  - split; [reflexivity|]. split; [reflexivity|].
    intros [H|H]; [exact H | lia].
  - destruct IH as (Hexit & Hclean & _).
    rewrite sigint_listener_eq. simpl.
    split; [exact Hexit|]. split.
    + apply (kill_cleanups _ _ Hclean).
    + intros _. apply kill_shuts.
Qed.

Lemma is_resolved_last w k :
  is_resolved (set_resolved (w_resolved w ++ [k]) w) k = true.
Proof.
  unfold is_resolved. simpl. rewrite existsb_app. simpl.
  rewrite Nat.eqb_refl. apply orb_true_iff. right. reflexivity.
Qed.

(** X3.  With a single interrupt listener and a tracked process, the program
    outlives the signal: it exits, with status 130, when the process
    closes, after the log descriptors were closed and the workspace
    removed. *)
Theorem interrupt_waits_for_close s pid p d out err :
  w_sigint (world s) = 1 ->
  ~ In (w_promises (world s)) (w_resolved (world s)) ->
  chromeProcess (runner s) = Some pid ->
  find_proc pid (w_procs (world s)) = Some p ->
  closed p = false ->
  on_close p = [ExitWatcher] ->
  chromeDataDir (runner s) = Some d ->
  chromeOutFile (runner s) = Some out -> out <> 0%Z ->
  chromeErrorFile (runner s) = Some err -> err <> 0%Z ->
  exit_code (sigint E (start s)) = None /\
  child_closes pid (sigint E (start s)) =
    {| state := torn_down E pid d out err s;
       awaited := [w_promises (world s)];
       exit_code := Some 130%Z |}.
Proof.
  intros Hone Hfresh Hproc Hfind Hopen Hls Hd Hout Hout0 Herr Herr0.
  destruct (kill_then_close E s pid p d out err Hproc Hfind Hopen Hls Hd
              Hout Hout0 Herr Herr0) as (_ & Hclose).
  assert (Hsig : sigint E (start s) =
            {| state := snd (kill E s);
               awaited := [w_promises (world s)];
               exit_code := None |}).
  { assert (Hex : existsb (Nat.eqb (w_promises (world s)))
                    (w_resolved (world s)) = false).
    { destruct (existsb (Nat.eqb (w_promises (world s))) (w_resolved (world s)))
        eqn:Hex; [|reflexivity].
      apply existsb_exists in Hex. destruct Hex as (k & Hin & Hk).
      apply Nat.eqb_eq in Hk. subst k. contradiction. }
    unfold sigint. simpl. rewrite Hone. simpl.
    rewrite sigint_listener_eq. simpl.
    unfold settle. simpl.
    rewrite (kill_tracked s pid Hproc).
    unfold is_resolved. cbn [snd world w_resolved set_trace set_procs set_promises].
    rewrite Hex. reflexivity. }
  rewrite Hsig. split; [reflexivity|].
  unfold child_closes. simpl. rewrite Hclose. simpl.
  unfold settle. simpl. unfold is_resolved. simpl.
  rewrite existsb_app. simpl. rewrite Nat.eqb_refl.
  rewrite orb_true_r. reflexivity.
Qed.

(** X4.  With two or more interrupt listeners, or with a listener and no
    tracked process, the program exits with status 130 at the signal
    itself: a listener finds nothing to kill, its promise is resolved at
    once, and it ends the program before any descriptor is closed or the
    workspace removed. *)
Theorem interrupt_exits_at_once s :
  2 <= w_sigint (world s) \/
  (1 <= w_sigint (world s) /\ chromeProcess (runner s) = None) ->
  exit_code (sigint E (start s)) = Some 130%Z /\
  chromeProcess (runner (state (sigint E (start s)))) = None /\
  cleanups (w_trace (world (state (sigint E (start s))))) =
    cleanups (w_trace (world s)).
Proof.
  intros H. unfold sigint. simpl.
  destruct (w_sigint (world s)) as [|n] eqn:Hn; [lia|].
  simpl. rewrite sigint_listener_eq.
  destruct (listeners_run n s) as (Hexit & Hclean & Hnone).
  set (q := Nat.iter n (sigint_listener E) (start s)) in *.
  assert (Hq : chromeProcess (runner (state q)) = None).
  { apply Hnone. destruct H as [H|(_ & H)]; [right; lia | left; exact H]. }
  rewrite (kill_untracked E (state q) Hq). simpl.
  unfold settle. simpl. rewrite Hexit.
  rewrite existsb_app. simpl.
  rewrite (is_resolved_last (set_promises _ (world (state q)))
             (w_promises (world (state q)))).
  rewrite orb_true_r. simpl.
  split; [reflexivity|]. split; [exact Hq | exact Hclean].
Qed.

End Interrupt.

(** ** Failures and repetitions of [launch()] *)

Section Relaunch.

Variable E : Env.

#[local] Arguments String.append : simpl never.

Lemma launch_fresh_unsupported s :
  tmpDirandPidFileReady (runner s) = false ->
  supported (platform E) = false ->
  launch_fresh E s =
  (Throw (JsError ("platform " ++ platform E ++ " is not supported")), s).
Proof.
  intros Hready Hsup. unfold launch_fresh, prepare_once.
  unfold bind at 1. unfold bind at 1. unfold this at 1. cbv beta iota.
  rewrite Hready. cbv beta iota delta [when negb].
  rewrite (prepare_unsupported E s Hsup). reflexivity.
Qed.

Lemma launch_fresh_no_executable s :
  truthy_str (chromePath (runner s)) = false ->
  chromeFinder E (platform E) = [] ->
  (tmpDirandPidFileReady (runner s) = false ->
   supported (platform E) = true ->
   launch_fresh E s =
   (Throw (JsError "no chrome installations found"), prepared E s)) /\
  (tmpDirandPidFileReady (runner s) = true ->
   launch_fresh E s = (Throw (JsError "no chrome installations found"), s)).
Proof.
  intros Hpath Hnone. split.
  - intros Hready Hsup. unfold launch_fresh, prepare_once.
    unfold bind at 1. unfold bind at 1. unfold this at 1. cbv beta iota.
    rewrite Hready. cbv beta iota delta [when negb].
    rewrite (prepare_supported E s Hsup).
    unfold bind at 1. unfold this at 1. cbv beta iota.
    change (chromePath (runner (prepared E s))) with (chromePath (runner s)).
    rewrite Hpath. cbv beta iota delta [when negb]. rewrite Hnone.
    reflexivity.
  - intros Hready. unfold launch_fresh. unfold bind at 1.
    rewrite (prepare_once_ready E s Hready).
    unfold bind at 1. unfold this at 1. cbv beta iota.
    rewrite Hpath. cbv beta iota delta [when negb]. rewrite Hnone.
    reflexivity.
Qed.

(** X5.  On an unsupported platform [launch()] rejects once past its port
    test, with nothing created, nothing started and the guard unset, so
    that the same call fails in the same way again. *)
Theorem launch_unsupported_platform s0 s :
  past_port_test E s0 s ->
  tmpDirandPidFileReady (runner s0) = false ->
  supported (platform E) = false ->
  launch E s0 =
    (Throw (JsError ("platform " ++ platform E ++ " is not supported")), s) /\
  runner s = runner s0 /\
  creations (w_trace (world s)) = creations (w_trace (world s0)) /\
  spawns (w_trace (world s)) = spawns (w_trace (world s0)) /\
  (forall s1,
     past_port_test E s s1 ->
     launch E s =
       (Throw (JsError ("platform " ++ platform E ++ " is not supported")), s1)).
Proof.
  intros Hpast Hready Hsup.
  assert (Hs : runner s = runner s0 /\
               creations (w_trace (world s)) = creations (w_trace (world s0)) /\
               spawns (w_trace (world s)) = spawns (w_trace (world s0))).
  { destruct Hpast as [(_ & ->) | (_ & _ & ->)]; [repeat split|].
    simpl. split; [reflexivity|]. split.
    - apply creations_snoc. reflexivity.
    - apply spawns_snoc. reflexivity. }
  destruct Hs as (Hr & Hc & Hsp).
  assert (Hready' : tmpDirandPidFileReady (runner s) = false)
    by (rewrite Hr; exact Hready).
  rewrite (launch_past_port_test E s0 s Hpast).
  rewrite (launch_fresh_unsupported s Hready' Hsup).
  repeat (split; [first [reflexivity | assumption]|]).
  intros s1 Hpast1.
  rewrite (launch_past_port_test E s s1 Hpast1).
  apply launch_fresh_unsupported; [|exact Hsup].
  destruct Hpast1 as [(_ & ->) | (_ & _ & ->)]; exact Hready'.
Qed.

(** X6.  Without an executable path and without an installation found,
    [launch()] rejects after it has prepared the workspace: the directory
    and the three files exist, the guard is set, no process was started.
    A [launch()] repeated on that session fails again without preparing a
    second workspace. *)
Theorem launch_no_executable s0 s :
  past_port_test E s0 s ->
  tmpDirandPidFileReady (runner s0) = false ->
  supported (platform E) = true ->
  truthy_str (chromePath (runner s0)) = false ->
  chromeFinder E (platform E) = [] ->
  launch E s0 =
    (Throw (JsError "no chrome installations found"), prepared E s) /\
  spawns (w_trace (world (prepared E s))) = spawns (w_trace (world s0)) /\
  chromeProcess (runner (prepared E s)) = chromeProcess (runner s0) /\
  (forall s1,
     past_port_test E (prepared E s) s1 ->
     launch E (prepared E s) =
       (Throw (JsError "no chrome installations found"), s1) /\
     creations (w_trace (world s1)) =
       creations (w_trace (world (prepared E s)))).
Proof.
  intros Hpast Hready Hsup Hpath Hnone.
  assert (Hs : runner s = runner s0 /\
               spawns (w_trace (world s)) = spawns (w_trace (world s0))).
  { destruct Hpast as [(_ & ->) | (_ & _ & ->)]; [split; reflexivity|].
    simpl. split; [reflexivity|]. apply spawns_snoc. reflexivity. }
  destruct Hs as (Hr & Hsp).
  assert (Hready' : tmpDirandPidFileReady (runner s) = false)
    by (rewrite Hr; exact Hready).
  assert (Hpath' : truthy_str (chromePath (runner s)) = false)
    by (rewrite Hr; exact Hpath).
  destruct (launch_fresh_no_executable s Hpath' Hnone) as (Hfirst & _).
  rewrite (launch_past_port_test E s0 s Hpast).
  split; [apply Hfirst; assumption|].
  split.
  { simpl. unfold spawns. rewrite filter_app. simpl. rewrite app_nil_r.
    exact Hsp. }
  split; [simpl; rewrite Hr; reflexivity|].
  intros s1 Hpast1.
  assert (Hs1 : runner s1 = runner (prepared E s) /\
                creations (w_trace (world s1)) =
                creations (w_trace (world (prepared E s)))).
  { destruct Hpast1 as [(_ & ->) | (_ & _ & ->)]; [split; reflexivity|].
    split; [reflexivity|]. apply creations_snoc. reflexivity. }
  destruct Hs1 as (Hr1 & Hc1).
  assert (Hpath1 : truthy_str (chromePath (runner s1)) = false)
    by (rewrite Hr1; exact Hpath').
  destruct (launch_fresh_no_executable s1 Hpath1 Hnone) as (_ & Hagain).
  rewrite (launch_past_port_test E _ s1 Hpast1).
  split; [apply Hagain; rewrite Hr1; reflexivity | exact Hc1].
Qed.

(** X7.  The executable [launch()] starts is the session's own path when it
    has one, whatever is installed, and otherwise the first installation
    found, which the session then keeps as its path. *)
Theorem launch_resolves_executable s0 s file :
  past_port_test E s0 s ->
  unstarted s0 ->
  supported (platform E) = true ->
  resolve_path E (runner s0) = Some file ->
  chromePath (runner (snd (launch E s0))) = Some file /\
  exists args out err,
    spawns (w_trace (world (snd (launch E s0)))) =
      spawns (w_trace (world s0)) ++
      [SpawnProc file args out err (w_next_pid (world s0))].
Proof.
  intros Hpast (Hready & Hproc) Hsup Hpath.
  assert (Hs : runner s = runner s0 /\
               spawns (w_trace (world s)) = spawns (w_trace (world s0)) /\
               w_next_pid (world s) = w_next_pid (world s0)).
  { destruct Hpast as [(_ & ->) | (_ & _ & ->)]; [repeat split|].
    simpl. split; [reflexivity|]. split; [|reflexivity].
    apply spawns_snoc. reflexivity. }
  destruct Hs as (Hr & Hsp & Hpid).
  rewrite (launch_past_port_test E s0 s Hpast).
  rewrite (launch_fresh_unprepared E s file); try (rewrite Hr; assumption);
    try assumption.
  unfold bind.
  destruct (poll_frame E 0 (launched E file s)) as (p & ms & l & Heq & Hl).
  destruct (poll E 0 (launched E file s)) as [[u|e] s1];
    simpl in Heq; subst s1; cbv beta iota delta [snd ret].
  all: split;
    [ unfold resolve_path in Hpath; unfold polled, launched, started,
        with_port, with_path; simpl; rewrite Hr;
      destruct (truthy_str (chromePath (runner s0))); simpl;
      match goal with |- context [truthy_num ?x] =>
        destruct (truthy_num x) end; simpl; try exact Hpath; reflexivity
    | unfold launched;
      rewrite (spawns_polled_started E p ms l file _ _ Hl);
      do 3 eexists; simpl; rewrite <- Hsp, <- Hpid;
      unfold spawns; rewrite filter_app; simpl; rewrite app_nil_r;
      reflexivity ].
Qed.

Ltac calls :=
  unfold resolve, setTimeout, logger, emit, isDebugReady, openSync.

Ltac tracking_field :=
  unfold tracking; simpl; try rewrite spawns_snoc by reflexivity; tauto.

Lemma spawn_tracking pid sp : preserves (tracking pid sp) (spawn E).
Proof.
  intros s (Hproc & Hsp). rewrite (spawn_tracked E s pid Hproc).
  split; [exact Hproc|]. simpl. rewrite spawns_snoc by reflexivity. exact Hsp.
Qed.

Lemma launch_tracking pid sp : preserves (tracking pid sp) (launch E).
Proof.
  unfold launch, launch_fresh, prepare_once, prepare.
  preserve_with calls; try apply spawn_tracking; tracking_field.
Qed.

Lemma fire_timer_tracking pid sp : preserves (tracking pid sp) (fire_timer E).
Proof.
  unfold fire_timer.
  preserve_with calls; try apply spawn_tracking; tracking_field.
Qed.

(** X8.  While a process is tracked, neither [launch()], nor [spawn()], nor a
    restart timer that fires starts another one or replaces the handle. *)
Theorem tracked_session_starts_nothing s pid a :
  chromeProcess (runner s) = Some pid ->
  a = DoLaunch \/ a = DoSpawn \/ a = DoTimer ->
  chromeProcess (runner (step E a s)) = Some pid /\
  spawns (w_trace (world (step E a s))) = spawns (w_trace (world s)).
Proof.
  intros Hproc Ha.
  assert (H : tracking pid (spawns (w_trace (world s))) s)
    by (split; [exact Hproc | reflexivity]).
  destruct Ha as [-> | [-> | ->]]; simpl.
  - apply (launch_tracking _ _ s H).
  - apply (spawn_tracking _ _ s H).
  - apply (fire_timer_tracking _ _ s H).
Qed.

Lemma launch_fresh_tracked s pid :
  tmpDirandPidFileReady (runner s) = true ->
  truthy_str (chromePath (runner s)) = true ->
  chromeProcess (runner s) = Some pid ->
  launch_fresh E s =
  (Return This,
   {| runner := runner s;
      world := set_trace
        (w_trace (world s) ++
         [Log Info ("chrome already running with pid " ++ show_Z pid ++ ".")])
        (world s) |}).
Proof.
  intros Hready Hpath Hproc. unfold launch_fresh. unfold bind at 1.
  rewrite (prepare_once_ready E s Hready).
  unfold bind at 1. unfold this at 1. cbv beta iota. rewrite Hpath.
  cbv beta iota delta [when negb]. unfold bind at 1. unfold ret at 1.
  cbv beta iota. unfold bind.
  rewrite (spawn_tracked E s pid Hproc). reflexivity.
Qed.

(** X9.  [launch()] on a session that already tracks a process, for instance
    after a readiness timeout, resolves after at most one probe (the port
    test) and no sleep: it does not wait for the tracked process to become
    ready. *)
Theorem relaunch_does_not_wait s pid :
  chromeProcess (runner s) = Some pid ->
  tmpDirandPidFileReady (runner s) = true ->
  truthy_str (chromePath (runner s)) = true ->
  (fst (launch E s) = Return This \/ fst (launch E s) = Return ProbeValue) /\
  w_probes (world (snd (launch E s))) <= S (w_probes (world s)) /\
  w_elapsed (world (snd (launch E s))) = w_elapsed (world s) /\
  runner (snd (launch E s)) = runner s.
Proof.
  intros Hproc Hready Hpath.
  destruct (truthy_num (port (runner s))) eqn:Hport.
  - destruct (isPortOpen E (w_probes (world s))) eqn:Hopen.
    + rewrite (launch_adopts E s Hport Hopen). simpl.
      split; [right; reflexivity|]. repeat split. lia.
    + rewrite (launch_falls_through E s Hport Hopen).
      rewrite (launch_fresh_tracked _ pid); [| assumption..].
      simpl. split; [left; reflexivity|]. repeat split. lia.
  - rewrite (launch_without_port E s Hport).
    rewrite (launch_fresh_tracked s pid Hready Hpath Hproc).
    simpl. split; [left; reflexivity|]. repeat split. lia.
Qed.

(** X10.  The debugging port on the command line is the session's port once
    [spawn()] has started the process: the port it had when that was set
    and not 0, and otherwise, a port of 0 counting as unset, the one the
    allocator returned, which the session keeps. *)
Theorem spawn_settles_port s file fd :
  chromeProcess (runner s) = None ->
  chromePath (runner s) = Some file ->
  pidFile (runner s) = Some fd ->
  port (runner (snd (spawn E s))) =
    (if truthy_num (port (runner s)) then port (runner s)
     else Some (getRandomPort E)) /\
  exists args,
    spawns (w_trace (world (snd (spawn E s)))) =
      spawns (w_trace (world s)) ++
      [SpawnProc file args (chromeOutFile (runner s))
         (chromeErrorFile (runner s)) (w_next_pid (world s))] /\
    In ("--remote-debugging-port=" ++
        show_port (port (runner (snd (spawn E s)))))%string args.
Proof.
  intros Hproc Hpath Hfd.
  rewrite (spawn_starts E s file fd Hproc Hpath Hfd). unfold bind.
  destruct (poll_frame E 0 (started E file fd s)) as (p & ms & l & Heq & Hl).
  destruct (poll E 0 (started E file fd s)) as [[u|e] s1];
    simpl in Heq; subst s1; cbv beta iota delta [snd ret].
  all: split;
    [ unfold polled, started, with_port; simpl;
      destruct (truthy_num (port (runner s))); reflexivity
    | exists (flags E (with_port E (runner s)));
      split; [apply (spawns_polled_started E p ms l file fd s Hl)|];
      rewrite flags_eq; apply in_or_app; right; left;
      unfold polled, started; reflexivity ].
Qed.

End Relaunch.

(** ** The restart cycle *)

Section Restart.

Variable E : Env.

Lemma string_app_assoc (x y z : string) :
  (x ++ (y ++ z))%string = ((x ++ y) ++ z)%string.
Proof.
  induction x as [|c x IH]; simpl; [reflexivity | rewrite IH; reflexivity].
Qed.

Lemma string_app_nil_r (x : string) : (x ++ "")%string = x.
Proof.
  induction x as [|c x IH]; simpl; [reflexivity | rewrite IH; reflexivity].
Qed.

Lemma written_app fd t1 t2 :
  written fd (t1 ++ t2) = (written fd t1 ++ written fd t2)%string.
Proof.
  induction t1 as [|e t1 IH]; simpl; [reflexivity|].
  destruct e; try exact IH.
  destruct (fd0 =? fd)%Z; [|exact IH].
  rewrite IH. apply string_app_assoc.
Qed.

#[local] Arguments String.append : simpl never.

Lemma find_proc_In pid ps p : find_proc pid ps = Some p -> In (pid, p) ps.
Proof.
  unfold find_proc. induction ps as [|[q x] ps IH]; simpl; [discriminate|].
  destruct (q =? pid)%Z eqn:Hq.
  - intros H. injection H as ->. apply Z.eqb_eq in Hq. subst q. left.
    reflexivity.
  - intros H. right. apply IH. exact H.
Qed.

Lemma flags_untracked r v : flags E (set_chromeProcess v r) = flags E r.
Proof. reflexivity. Qed.

(** The session after the tracked process [pid] closed unexpectedly. *)
Lemma unexpected_close s pid p :
  restartUnexpectedChrome (runner s) = true ->
  find_proc pid (w_procs (world s)) = Some p ->
  closed p = false ->
  on_close p = [ExitWatcher] ->
  emit_close pid s =
  (Return tt,
   {| runner := set_chromeProcess None (runner s);
      world :=
        set_trace
          (w_trace (world s) ++ [Log Warn "chrome exit unexpected, restart it"])
          (set_timers (w_timers (world s) ++ [(1000%Z, CbSpawn)])
             (set_procs
                (map_proc pid
                   (fun p => {| closed := true; on_close := on_close p |})
                   (w_procs (world s)))
                (world s))) |}).
Proof.
  intros Hflag Hfind Hopen Hls.
  unfold emit_close. run_methods. rewrite Hfind, Hopen. run_methods.
  rewrite Hls. unfold run_listeners, run_listener. run_methods.
  rewrite Hflag. run_methods. reflexivity.
Qed.

Lemma fire_timer_spawns s d rest :
  w_timers (world s) = (d, CbSpawn) :: rest ->
  snd (fire_timer E s) =
  snd (spawn E {| runner := runner s; world := set_timers rest (world s) |}).
Proof.
  intros Ht. unfold fire_timer. unfold bind at 1. unfold host at 1.
  cbv beta iota. rewrite Ht. unfold bind, update_host, ret.
  destruct (spawn E _) as [[v|e] s1]; reflexivity.
Qed.

(** X11.  An unexpected exit followed by the restart timer: the session tracks
    a new process, whose pid differs from the old one, started with the
    same executable, the same command line and the same log descriptors;
    its pid is appended to what the pid file holds, it carries an
    exit-watcher of its own, and no timer is left. *)
Theorem restart_cycle s pid p file fd :
  registered s ->
  restartUnexpectedChrome (runner s) = true ->
  chromeProcess (runner s) = Some pid ->
  find_proc pid (w_procs (world s)) = Some p ->
  closed p = false ->
  on_close p = [ExitWatcher] ->
  w_timers (world s) = [] ->
  chromePath (runner s) = Some file ->
  pidFile (runner s) = Some fd ->
  truthy_num (port (runner s)) = true ->
  let s' := run E [DoClose pid; DoTimer] s in
  let new := w_next_pid (world s) in
  chromeProcess (runner s') = Some new /\
  new <> pid /\
  spawns (w_trace (world s')) =
    spawns (w_trace (world s)) ++
    [SpawnProc file (flags E (runner s)) (chromeOutFile (runner s))
       (chromeErrorFile (runner s)) new] /\
  written fd (w_trace (world s')) =
    (written fd (w_trace (world s)) ++ show_Z new)%string /\
  find_proc new (w_procs (world s')) =
    Some {| closed := false; on_close := [ExitWatcher] |} /\
  w_timers (world s') = [] /\
  restartUnexpectedChrome (runner s') = true.
Proof.
  intros Hreg Hflag Hproc Hfind Hopen Hls Htimers Hpath Hfd Hport s' new.
  assert (Hne : new <> pid).
  { destruct Hreg as (_ & _ & Hall). apply find_proc_In in Hfind.
    rewrite Forall_forall in Hall. destruct (Hall _ Hfind) as (Hlt & _).
    simpl in Hlt. subst new. lia. }
  pose proof (emit_close_registered pid s Hreg) as Hreg1.
  rewrite (unexpected_close s pid p Hflag Hfind Hopen Hls) in Hreg1.
  unfold snd in Hreg1. rewrite Htimers in Hreg1. simpl app in Hreg1.
  set (s2 := {| runner := set_chromeProcess None (runner s);
                world :=
                  set_timers []
                    (set_trace
                       (w_trace (world s) ++
                        [Log Warn "chrome exit unexpected, restart it"])
                       (set_timers [(1000%Z, CbSpawn)]
                          (set_procs
                             (map_proc pid
                                (fun p => {| closed := true;
                                             on_close := on_close p |})
                                (w_procs (world s)))
                             (world s)))) |}).
  assert (Hs' : s' = snd (spawn E s2)).
  { subst s'. unfold run. simpl.
    rewrite (unexpected_close s pid p Hflag Hfind Hopen Hls).
    unfold snd at 2. rewrite Htimers. simpl app.
    match goal with |- context [fire_timer E ?X] =>
      rewrite (fire_timer_spawns X 1000%Z [] eq_refl) end.
    reflexivity. }
  clearbody s'. subst s'.
  assert (Hreg2 : registered s2) by exact Hreg1.
  rewrite (spawn_starts E s2 file fd eq_refl Hpath Hfd). unfold bind.
  destruct (poll_frame E 0 (started E file fd s2)) as (k & ms & l & Heq & Hl).
  pose proof (spawn_attaches_watcher E s2 file fd Hreg2) as Hwatch.
  destruct (poll E 0 (started E file fd s2)) as [[u|e] s3];
    simpl in Heq; subst s3; cbv beta iota delta [snd ret].
  all: split; [reflexivity|]; split; [exact Hne|]; split;
    [ rewrite (spawns_polled_started E k ms l file fd s2 Hl);
      subst s2; simpl; rewrite spawns_snoc by reflexivity;
      unfold with_port; simpl; rewrite Hport; reflexivity |];
    split;
    [ subst s2; unfold polled, started; simpl;
      repeat rewrite written_app; simpl; rewrite Z.eqb_refl;
      destruct Hl as [-> | ->]; simpl;
      repeat rewrite string_app_nil_r; reflexivity |];
    split; [exact Hwatch|]; split; [reflexivity|];
    subst s2; unfold polled, started, with_port; simpl; rewrite Hport;
    exact Hflag.
Qed.

(** X12.  [kill()] does not cancel a restart that is pending: called between
    an unexpected exit and its timer, it resolves at once, and the timer
    still starts a process, which the session then tracks with the restart
    switched off and the workspace in place. *)
Theorem kill_leaves_pending_restart s d rest file fd :
  chromeProcess (runner s) = None ->
  w_timers (world s) = (d, CbSpawn) :: rest ->
  chromePath (runner s) = Some file ->
  pidFile (runner s) = Some fd ->
  let s' := run E [DoKill; DoTimer] s in
  In (w_promises (world s)) (w_resolved (world s')) /\
  restartUnexpectedChrome (runner s') = false /\
  chromeProcess (runner s') = Some (w_next_pid (world s)) /\
  (exists args,
     spawns (w_trace (world s')) =
       spawns (w_trace (world s)) ++
       [SpawnProc file args (chromeOutFile (runner s))
          (chromeErrorFile (runner s)) (w_next_pid (world s))]) /\
  cleanups (w_trace (world s')) = cleanups (w_trace (world s)) /\
  w_timers (world s') = rest.
Proof.
  intros Hproc Htimers Hpath Hfd s'.
  set (s2 := {| runner := set_restartUnexpectedChrome false (runner s);
                world :=
                  set_timers rest
                    (set_resolved (w_resolved (world s) ++ [w_promises (world s)])
                       (set_promises (S (w_promises (world s))) (world s))) |}).
  assert (Hs' : s' = snd (spawn E s2)).
  { subst s'. unfold run. simpl.
    rewrite (kill_untracked E s Hproc). unfold snd at 2.
    match goal with |- context [fire_timer E ?X] =>
      rewrite (fire_timer_spawns X d rest Htimers) end.
    reflexivity. }
  clearbody s'. subst s'.
  rewrite (spawn_starts E s2 file fd Hproc Hpath Hfd). unfold bind.
  destruct (poll_frame E 0 (started E file fd s2)) as (k & ms & l & Heq & Hl).
  destruct (poll E 0 (started E file fd s2)) as [[u|e] s3];
    simpl in Heq; subst s3; cbv beta iota delta [snd ret].
  all: split; [simpl; apply in_or_app; right; left; reflexivity|];
    split; [unfold polled, started, with_port; simpl;
            destruct (truthy_num (port (runner s))); reflexivity|];
    split; [reflexivity|];
    split;
    [ eexists; rewrite (spawns_polled_started E k ms l file fd s2 Hl);
      reflexivity |];
    split; [|reflexivity];
    unfold cleanups; simpl; repeat rewrite filter_app; simpl;
    destruct Hl as [-> | ->]; simpl; repeat rewrite app_nil_r; reflexivity.
Qed.

End Restart.

(** ** What a session keeps over its whole life *)

Section Lifetime.

Variable E : Env.

#[local] Arguments String.append : simpl never.

(** [spawn()] assigns nothing but the port, when unset, and the process
    handle. *)
Lemma spawn_runner_cases s :
  runner (snd (spawn E s)) = runner s \/
  runner (snd (spawn E s)) = with_port E (runner s) \/
  runner (snd (spawn E s)) =
    set_chromeProcess (Some (w_next_pid (world s))) (with_port E (runner s)).
Proof.
  destruct (chromeProcess (runner s)) as [pid|] eqn:Hproc.
  { rewrite (spawn_tracked E s pid Hproc). left. reflexivity. }
  destruct (chromePath (runner s)) as [file|] eqn:Hpath.
  - destruct (pidFile (runner s)) as [fd|] eqn:Hfd.
    + rewrite (spawn_starts E s file fd Hproc Hpath Hfd). unfold bind.
      destruct (poll_frame E 0 (started E file fd s)) as (p & ms & l & Heq & Hl).
      destruct (poll E 0 (started E file fd s)) as [[u|e] s1];
        simpl in Heq; subst s1; right; right; reflexivity.
    + right. right. unfold spawn, with_port. run_methods. rewrite Hproc.
      destruct (truthy_num (port (runner s))); run_methods; rewrite Hpath;
        run_methods; rewrite Hfd; run_methods; reflexivity.
  - right. left. unfold spawn, with_port. run_methods. rewrite Hproc.
    destruct (truthy_num (port (runner s))); run_methods; rewrite Hpath;
      run_methods; reflexivity.
Qed.

Ltac calls :=
  unfold destroyTmp, rimraf_sync, resolve, setTimeout, logger, emit,
         kill_request, new_promise, on_close_add, isDebugReady, openSync.

Ltac configured_field := unfold configured; simpl; tauto.

Lemma spawn_configured fl p path : preserves (configured fl p path) (spawn E).
Proof.
  intros s (Hfl & Hp & Hpath).
  assert (Hport : configured fl p path
            {| runner := with_port E (runner s); world := world s |}).
  { unfold configured, with_port. simpl.
    destruct (truthy_num (port (runner s))) eqn:Ht; simpl.
    - repeat split; assumption.
    - repeat split; try assumption. intros Hp'. specialize (Hp Hp').
      rewrite Hp, Hp' in Ht. discriminate Ht. }
  unfold configured in *.
  destruct (spawn_runner_cases s) as [-> | [-> | ->]]; simpl.
  - repeat split; assumption.
  - exact Hport.
  - exact Hport.
Qed.

Lemma run_listeners_configured fl p path ls :
  preserves (configured fl p path) (run_listeners ls).
Proof.
  induction ls as [|l ls IH]; simpl.
  - apply preserves_ret.
  - apply preserves_bind; [| intros _; exact IH].
    unfold run_listener. preserve_with calls; configured_field.
Qed.

Lemma emit_close_configured fl p path pid :
  preserves (configured fl p path) (emit_close pid).
Proof.
  unfold emit_close. preserve_with idtac;
    try apply run_listeners_configured; configured_field.
Qed.

Lemma kill_configured fl p path : preserves (configured fl p path) (kill E).
Proof. unfold kill. preserve_with calls; configured_field. Qed.

Lemma fire_timer_configured fl p path :
  preserves (configured fl p path) (fire_timer E).
Proof.
  unfold fire_timer.
  preserve_with calls; try apply spawn_configured; configured_field.
Qed.

Lemma prepare_once_configured fl p path :
  preserves (configured fl p path) (prepare_once E).
Proof.
  unfold prepare_once, prepare. preserve_with calls; configured_field.
Qed.

Lemma launch_fresh_configured fl p path :
  preserves (configured fl p path) (launch_fresh E).
Proof.
  intros s H. unfold launch_fresh. unfold bind at 1.
  pose proof (prepare_once_configured fl p path s H) as H1.
  destruct (prepare_once E s) as [[u|e] s1]; simpl in H1; [|exact H1].
  unfold bind at 1. unfold this at 1. cbv beta iota.
  destruct (truthy_str (chromePath (runner s1))) eqn:Hpath;
    cbv beta iota delta [when negb].
  - unfold bind at 1. unfold ret at 1. cbv beta iota.
    apply (preserves_bind _ (spawn E) (fun _ => ret This));
      [apply spawn_configured | intros _; apply preserves_ret | exact H1].
  - destruct (chromeFinder E (platform E)) as [|first rest].
    + exact H1.
    + unfold bind at 1. unfold update at 1. cbv beta iota.
      apply (preserves_bind _ (spawn E) (fun _ => ret This));
        [apply spawn_configured | intros _; apply preserves_ret |].
      destruct H1 as (Hfl & Hp & Hx). unfold configured. simpl.
      split; [exact Hfl|]. split; [exact Hp|].
      intros Hx'. specialize (Hx Hx'). rewrite Hx, Hx' in Hpath.
      discriminate Hpath.
Qed.

Lemma launch_configured fl p path : preserves (configured fl p path) (launch E).
Proof.
  unfold launch.
  preserve_with calls; try apply launch_fresh_configured; configured_field.
Qed.

Lemma run_configured fl p path acts : forall s,
  configured fl p path s -> configured fl p path (run E acts s).
Proof.
  induction acts as [|a acts IH]; intros s H; simpl; [exact H|].
  apply IH. destruct a; simpl.
  - apply launch_configured, H.
  - apply spawn_configured, H.
  - apply kill_configured, H.
  - apply emit_close_configured, H.
  - apply fire_timer_configured, H.
Qed.

(** X13.  Whatever happens to a session (launches, kills, exits, restarts),
    the caller's extra flags never change, and the port and the executable
    path, once they are set, stay what they are. *)
Theorem configuration_is_stable s acts :
  chromeFlags (runner (run E acts s)) = chromeFlags (runner s) /\
  (truthy_num (port (runner s)) = true ->
   port (runner (run E acts s)) = port (runner s)) /\
  (truthy_str (chromePath (runner s)) = true ->
   chromePath (runner (run E acts s)) = chromePath (runner s)).
Proof.
  apply (run_configured (chromeFlags (runner s)) (port (runner s))
           (chromePath (runner s)) acts s).
  repeat split.
Qed.

Lemma in_close_snoc fd t e :
  (forall x, e <> CloseFd x) -> In (CloseFd fd) (t ++ [e]) -> In (CloseFd fd) t.
Proof.
  intros He H. apply in_app_or in H. destruct H as [H|[H|[]]]; [exact H|].
  exfalso. apply (He fd). exact H.
Qed.

Ltac kept_open_field :=
  unfold descriptors_kept; simpl;
  intros (K1 & K2 & K3 & K4);
  repeat split; intros;
  try rewrite app_nil_r in *;
  try match goal with
      | H : In (CloseFd _) (_ ++ [_]) |- _ =>
          apply in_close_snoc in H; [|intros ?; discriminate]
      end;
  first [ solve [edestruct K1 as (? & ?); [eassumption|]; assumption]
        | solve [edestruct K2 as (? & ?); [eassumption|]; assumption]
        | solve [edestruct K3 as (? & ?); [eassumption|]; assumption]
        | solve [eapply K4; eassumption]
        | discriminate ].

Lemma prepare_descriptors : preserves descriptors_kept (prepare E).
Proof.
  intros s (K1 & K2 & K3 & K4).
  destruct (supported (platform E)) eqn:Hsup.
  - rewrite (prepare_supported E s Hsup). unfold descriptors_kept. simpl.
    assert (Hold : forall x,
              In (CloseFd x)
                 (w_trace (world s) ++
                  [Mkdir (makeTmpDir E (w_tmpdirs (world s)));
                   OpenAppend (makeTmpDir E (w_tmpdirs (world s)) ++
                               "/chrome-out.log") (w_next_fd (world s));
                   OpenAppend (makeTmpDir E (w_tmpdirs (world s)) ++
                               "/chrome-err.log") (w_next_fd (world s) + 1);
                   OpenAppend (makeTmpDir E (w_tmpdirs (world s)) ++
                               "/chrome.pid") (w_next_fd (world s) + 1 + 1);
                   Log Info ("created chrome data dir " ++
                             makeTmpDir E (w_tmpdirs (world s)))]) ->
              (x < w_next_fd (world s))%Z).
    { intros x H. apply in_app_or in H. destruct H as [H|H].
      - apply (K1 x H).
      - simpl in H. repeat (destruct H as [H|H]; [discriminate H|]).
        contradiction. }
    repeat split; intros;
      repeat match goal with
             | H : In (CloseFd _) _ |- _ => apply Hold in H
             | H : Some _ = Some _ |- _ => injection H as H
             end;
      subst; try lia;
      intros Heq; injection Heq as Heq; lia.
  - rewrite (prepare_unsupported E s Hsup).
    exact (conj K1 (conj K2 (conj K3 K4))).
Qed.

Lemma destroyTmp_descriptors : preserves descriptors_kept destroyTmp.
Proof.
  intros s (K1 & K2 & K3 & K4). unfold destroyTmp. run_methods.
  destruct (chromeOutFile (runner s)) as [out|] eqn:Hout; run_methods;
    [destruct (out =? 0)%Z eqn:Hout0; run_methods|];
    (destruct (chromeErrorFile (runner s)) as [err|] eqn:Herr; run_methods;
     [destruct (err =? 0)%Z eqn:Herr0; run_methods|]);
    (destruct (chromeDataDir (runner s)) as [d|] eqn:Hd; run_methods);
    unfold descriptors_kept; simpl;
    rewrite ?Hout, ?Herr;
    repeat split; intros;
    repeat match goal with
           | H : In _ (_ ++ _) |- _ => apply in_app_or in H; destruct H as [H|H]
           | H : In _ [_] |- _ => destruct H as [H|[]]
           end;
    try discriminate;
    repeat match goal with
           | H : CloseFd _ = CloseFd _ |- _ => injection H as H; subst
           end;
    first [ solve [edestruct K1 as (? & ?); [eassumption|]; assumption]
          | solve [edestruct K2 as (? & ?); [first [eassumption | reflexivity]|];
                   assumption]
          | solve [edestruct K3 as (? & ?); [first [eassumption | reflexivity]|];
                   assumption]
          | solve [eapply K4; eassumption] ].
Qed.

Lemma run_listeners_descriptors ls :
  preserves descriptors_kept (run_listeners ls).
Proof.
  induction ls as [|l ls IH]; simpl.
  - apply preserves_ret.
  - apply preserves_bind; [| intros _; exact IH].
    destruct l as [|k]; unfold run_listener.
    + preserve_with ltac:(unfold setTimeout, logger, emit); kept_open_field.
    + apply preserves_bind; [apply destroyTmp_descriptors|].
      intros _. unfold resolve. preserve_with idtac; kept_open_field.
Qed.

Lemma emit_close_descriptors pid : preserves descriptors_kept (emit_close pid).
Proof.
  unfold emit_close. preserve_with idtac;
    try apply run_listeners_descriptors; kept_open_field.
Qed.

Ltac calls' :=
  unfold resolve, setTimeout, logger, emit, kill_request, new_promise,
         on_close_add, isDebugReady, child_spawn, handleSIGINT,
         handleChromeUnexpectedExit, writeFileSync, waitUntilReady.

Lemma kill_descriptors : preserves descriptors_kept (kill E).
Proof. unfold kill. preserve_with calls'; kept_open_field. Qed.

Lemma spawn_descriptors : preserves descriptors_kept (spawn E).
Proof.
  unfold spawn. preserve_with calls';
    try (unfold polled; subst); kept_open_field.
Qed.

Lemma launch_descriptors : preserves descriptors_kept (launch E).
Proof.
  unfold launch, launch_fresh, prepare_once.
  preserve_with calls';
    try apply prepare_descriptors; try apply spawn_descriptors;
    kept_open_field.
Qed.

Lemma fire_timer_descriptors : preserves descriptors_kept (fire_timer E).
Proof.
  unfold fire_timer.
  preserve_with calls'; try apply spawn_descriptors; kept_open_field.
Qed.

Lemma run_descriptors acts : forall s,
  descriptors_kept s -> descriptors_kept (run E acts s).
Proof.
  induction acts as [|a acts IH]; intros s H; simpl; [exact H|].
  apply IH. destruct a; simpl.
  - apply launch_descriptors, H.
  - apply spawn_descriptors, H.
  - apply kill_descriptors, H.
  - apply emit_close_descriptors, H.
  - apply fire_timer_descriptors, H.
Qed.

(** X14.  No method closes the descriptor of the pid file: over any run of a
    new session, none of the descriptors closed is the one the session
    holds for [chrome.pid], which stays open after teardown. *)
Theorem pid_file_is_never_closed o acts fd :
  pidFile (runner (run E acts (session o))) = Some fd ->
  ~ In (CloseFd fd) (w_trace (world (run E acts (session o)))).
Proof.
  intros Hfd Hin.
  assert (H : descriptors_kept (run E acts (session o))).
  { apply run_descriptors. unfold descriptors_kept. simpl.
    repeat split; intros; first [contradiction | discriminate]. }
  destruct H as (K1 & _). destruct (K1 fd Hin) as (_ & Hne).
  contradiction.
Qed.

End Lifetime.

(** ** The exit-watcher over the runs of a session *)

Section Watched.

Variable E : Env.

#[local] Arguments String.append : simpl never.

Lemma find_proc_app pid ps qs :
  find_proc pid (ps ++ qs) =
  match find_proc pid ps with
  | Some p => Some p
  | None => find_proc pid qs
  end.
Proof.
  unfold find_proc. induction ps as [|[q x] ps IH]; simpl; [reflexivity|].
  destruct (q =? pid)%Z; [reflexivity | exact IH].
Qed.

Lemma find_proc_map_other pid pid' g ps :
  pid' <> pid ->
  find_proc pid' (map_proc pid g ps) = find_proc pid' ps.
Proof.
  intros Hne. unfold find_proc, map_proc.
  induction ps as [|[q x] ps IH]; simpl; [reflexivity|].
  destruct (q =? pid)%Z eqn:Hq; simpl.
  - apply Z.eqb_eq in Hq. subst q.
    destruct (pid =? pid')%Z eqn:Hq'; [apply Z.eqb_eq in Hq'; congruence|].
    exact IH.
  - destruct (q =? pid')%Z; [reflexivity | exact IH].
Qed.

Lemma find_proc_map_same pid g ps :
  find_proc pid (map_proc pid g ps) =
  match find_proc pid ps with Some p => Some (g p) | None => None end.
Proof.
  unfold find_proc, map_proc.
  induction ps as [|[q x] ps IH]; simpl; [reflexivity|].
  destruct (q =? pid)%Z eqn:Hq; simpl; rewrite Hq; [reflexivity | exact IH].
Qed.

Lemma find_proc_below pid ps p :
  Forall (fun e => (fst e < pid)%Z) ps -> find_proc pid ps = Some p -> False.
Proof.
  intros Hall Hfind. apply find_proc_In in Hfind.
  rewrite Forall_forall in Hall. specialize (Hall _ Hfind). simpl in Hall. lia.
Qed.

(** The table of children after [spawn()] started one. *)
Lemma watched_child s s' :
  watched s ->
  chromeProcess (runner s) = None ->
  restartUnexpectedChrome (runner s') = restartUnexpectedChrome (runner s) ->
  chromeProcess (runner s') = Some (w_next_pid (world s)) ->
  w_procs (world s') =
    map_proc (w_next_pid (world s))
      (fun p => {| closed := closed p; on_close := on_close p ++ [ExitWatcher] |})
      (w_procs (world s) ++
       [(w_next_pid (world s), {| closed := false; on_close := [] |})]) ->
  registered s' ->
  watched s'.
Proof.
  intros (Hreg & Hw) Hnone Hflag Hproc Hprocs Hreg'.
  split; [exact Hreg'|]. rewrite Hflag. intros Htrue.
  destruct (Hw Htrue) as (_ & Hothers).
  assert (Hlt : Forall (fun e => (fst e < w_next_pid (world s))%Z)
                  (w_procs (world s))).
  { destruct Hreg as (_ & _ & H). eapply Forall_impl; [|exact H].
    intros a Ha. apply Ha. }
  rewrite Hprocs, Hproc, (map_proc_fresh _ _ _ _ Hlt). split.
  - intros pid Hpid. injection Hpid as <-. apply find_proc_fresh. exact Hlt.
  - intros pid p. rewrite find_proc_app.
    destruct (find_proc pid (w_procs (world s))) as [q|] eqn:Hq.
    + intros H. injection H as <-. left.
      destruct (Hothers pid q Hq) as [Hc|Hc]; [exact Hc|].
      rewrite Hnone in Hc. discriminate Hc.
    + unfold find_proc. simpl.
      destruct (w_next_pid (world s) =? pid)%Z eqn:Heq; [|discriminate].
      intros _. right. apply Z.eqb_eq in Heq. subst pid. reflexivity.
Qed.

Lemma spawn_watched : preserves watched (spawn E).
Proof.
  intros s H. pose proof H as (Hreg & Hw).
  pose proof (spawn_registered E s Hreg) as Hreg'.
  destruct (chromeProcess (runner s)) as [pid|] eqn:Hproc.
  { rewrite (spawn_tracked E s pid Hproc) in *. split; [exact Hreg'|].
    simpl. rewrite Hproc. exact Hw. }
  destruct (chromePath (runner s)) as [file|] eqn:Hpath.
  - destruct (pidFile (runner s)) as [fd|] eqn:Hfd.
    + rewrite (spawn_starts E s file fd Hproc Hpath Hfd) in *. unfold bind in *.
      destruct (poll_frame E 0 (started E file fd s)) as (p & ms & l & Heq & Hl).
      destruct (poll E 0 (started E file fd s)) as [[u|e] s1];
        simpl in Heq; subst s1; cbv beta iota delta [snd ret] in *;
        (apply (watched_child s); try assumption;
         unfold polled, started, with_port; simpl;
         destruct (truthy_num (port (runner s))); reflexivity).
    + revert Hreg'. unfold spawn. run_methods. rewrite Hproc.
      destruct (truthy_num (port (runner s))); run_methods; rewrite Hpath;
        run_methods; rewrite Hfd; run_methods; intros Hreg';
        (apply (watched_child s); try assumption; reflexivity).
  - revert Hreg'. unfold spawn. run_methods. rewrite Hproc.
    destruct (truthy_num (port (runner s))); run_methods; rewrite Hpath;
      run_methods; intros Hreg'; (split; [exact Hreg'|]); simpl;
      rewrite Hproc; exact Hw.
Qed.

Lemma kill_watched : preserves watched (kill E).
Proof.
  intros s (Hreg & _). split; [apply kill_registered; exact Hreg|].
  destruct (kill_shuts E s) as (Hflag & _). rewrite Hflag. discriminate.
Qed.

Lemma emit_close_watched pid : preserves watched (emit_close pid).
Proof.
  intros s H. pose proof H as (Hreg & Hw).
  pose proof (emit_close_registered pid s Hreg) as Hreg'.
  split; [exact Hreg'|]. clear Hreg'.
  destruct (restartUnexpectedChrome (runner s)) eqn:Hflag.
  - destruct (Hw eq_refl) as (Htracked & Hothers).
    unfold emit_close. run_methods.
    destruct (find_proc pid (w_procs (world s))) as [p|] eqn:Hfind;
      run_methods; [|rewrite Hflag; exact Hw].
    destruct (closed p) eqn:Hclosed; run_methods; [rewrite Hflag; exact Hw|].
    destruct (Hothers pid p Hfind) as [Hc|Hc]; [congruence|].
    pose proof (Htracked pid Hc) as Hp. rewrite Hfind in Hp.
    injection Hp as ->. simpl. run_methods. rewrite Hflag. run_methods.
    intros _. split; [discriminate|].
    intros pid' q.
    destruct (Z.eq_dec pid' pid) as [->|Hne].
    + rewrite find_proc_map_same, Hfind. intros Hq. injection Hq as <-.
      left. reflexivity.
    + rewrite (find_proc_map_other pid pid' _ _ Hne). intros Hq.
      destruct (Hothers pid' q Hq) as [Hc'|Hc']; [left; exact Hc'|].
      rewrite Hc in Hc'. injection Hc' as Hc'. congruence.
  - assert (Hs : shut (chromeProcess (runner s)) (w_timers (world s))
                   (spawns (w_trace (world s))) s)
      by (repeat split; assumption).
    apply (emit_close_shut _ _ _ pid) in Hs. destruct Hs as (Hf & _).
    rewrite Hf. discriminate.
Qed.

Ltac calls :=
  unfold resolve, setTimeout, logger, emit, isDebugReady, openSync.

Lemma watched_frame r r' w w' :
  watched {| runner := r; world := w |} ->
  restartUnexpectedChrome r' = restartUnexpectedChrome r ->
  chromeProcess r' = chromeProcess r ->
  w_procs w' = w_procs w ->
  w_sigint w' = w_sigint w ->
  w_next_pid w' = w_next_pid w ->
  spawns (w_trace w') = spawns (w_trace w) ->
  watched {| runner := r'; world := w' |}.
Proof.
  unfold watched, registered. simpl.
  intros (Hreg & Hw) -> -> -> -> -> ->. split; assumption.
Qed.

Ltac watched_field :=
  intros Hwatched; eapply watched_frame; [exact Hwatched | ..];
  simpl; try rewrite spawns_snoc by reflexivity; reflexivity.

Lemma launch_watched : preserves watched (launch E).
Proof.
  unfold launch, launch_fresh, prepare_once, prepare.
  preserve_with calls; try apply spawn_watched; watched_field.
Qed.

Lemma fire_timer_watched : preserves watched (fire_timer E).
Proof.
  unfold fire_timer.
  preserve_with calls; try apply spawn_watched; watched_field.
Qed.

Lemma run_watched acts : forall s, watched s -> watched (run E acts s).
Proof.
  induction acts as [|a acts IH]; intros s H; simpl; [exact H|].
  apply IH. destruct a; simpl.
  - apply launch_watched, H.
  - apply spawn_watched, H.
  - apply kill_watched, H.
  - apply emit_close_watched, H.
  - apply fire_timer_watched, H.
Qed.

(** X15.  In every run of a new session in which [kill()] was not called, the
    tracked process is open and carries the exit-watcher alone; when it
    closes, the handle is cleared and exactly one [spawn()] is scheduled
    1000 ms later. *)
Theorem unexpected_exit_always_restarts o acts pid :
  let s := run E acts (session o) in
  restartUnexpectedChrome (runner s) = true ->
  chromeProcess (runner s) = Some pid ->
  find_proc pid (w_procs (world s)) =
    Some {| closed := false; on_close := [ExitWatcher] |} /\
  fst (emit_close pid s) = Return tt /\
  chromeProcess (runner (snd (emit_close pid s))) = None /\
  w_timers (world (snd (emit_close pid s))) =
    w_timers (world s) ++ [(1000%Z, CbSpawn)].
Proof.
  intros s Hflag Hproc.
  assert (H : watched s).
  { apply run_watched. split.
    - repeat split. constructor.
    - intros _. split; intros; discriminate. }
  destruct H as (_ & Hw). destruct (Hw Hflag) as (Htracked & _).
  pose proof (Htracked pid Hproc) as Hfind.
  split; [exact Hfind|].
  rewrite (unexpected_close s pid _ Hflag Hfind eq_refl eq_refl).
  repeat split.
Qed.

End Watched.

(** ** The wait for readiness, for any browser *)

Section Waiting.

Variable E : Env.

Lemma first_success (f : nat -> bool) n :
  (forall i, i < n -> f i = false) \/
  (exists k, k < n /\ f k = true /\ forall i, i < k -> f i = false).
Proof.
  induction n as [|n IH].
  - left. intros i Hi. lia.
  - destruct IH as [Hall | (k & Hk & Hok & Hbefore)].
    + destruct (f n) eqn:Hn.
      * right. exists n. repeat split; [lia | exact Hn | exact Hall].
      * left. intros i Hi. destruct (Nat.eq_dec i n) as [->|Hne];
          [exact Hn | apply Hall; lia].
    + right. exists k. repeat split; [lia | exact Hok | exact Hbefore].
Qed.

(** X16.  [waitUntilReady()] stops at the first probe that succeeds, or at the
    eleventh that fails: it makes [p] probes, between 1 and 11, sleeps
    500 ms after each of the first [p - 1], all failed, and resolves
    exactly when the last one succeeded; it rejects, with the last probe's
    error, only after 11 probes. *)
Theorem wait_stops_at_first_success s :
  exists p,
    1 <= p <= 11 /\
    w_probes (world (snd (waitUntilReady E s))) = w_probes (world s) + p /\
    w_elapsed (world (snd (waitUntilReady E s))) =
      (w_elapsed (world s) + 500 * Z.of_nat (p - 1))%Z /\
    (forall i, i < p - 1 -> isPortOpen E (w_probes (world s) + i) = false) /\
    (isPortOpen E (w_probes (world s) + (p - 1)) = true ->
     fst (waitUntilReady E s) = Return tt) /\
    (isPortOpen E (w_probes (world s) + (p - 1)) = false ->
     fst (waitUntilReady E s) = Throw PortClosed /\ p = 11).
Proof.
  rewrite waitUntilReady_poll.
  set (s0 := {| runner := runner s;
                world := set_trace
                  (w_trace (world s) ++ [Log Info "wait until chrome ready"])
                  (world s) |}).
  destruct (first_success (fun i => isPortOpen E (w_probes (world s) + i)) 11)
    as [Hall | (k & Hk & Hok & Hbefore)].
  - exists 11. rewrite (poll_all_fail E 10 0 s0);
      [| lia | intros i Hi; apply Hall; lia].
    simpl.
    split; [lia|]. split; [reflexivity|]. split; [reflexivity|].
    split; [intros i Hi; apply Hall; lia|].
    split.
    + intros Hlast. rewrite Hall in Hlast by lia. discriminate Hlast.
    + intros _. split; reflexivity.
  - exists (S k). rewrite (poll_succeeds_after E k 0 s0);
      [| lia | exact Hbefore | exact Hok].
    simpl. rewrite Nat.sub_0_r.
    split; [lia|]. split; [reflexivity|]. split; [reflexivity|].
    split; [exact Hbefore|].
    split.
    + intros _. reflexivity.
    + intros Hlast. rewrite Hok in Hlast. discriminate Hlast.
Qed.

(** X17.  A browser that [launch()] adopted is not this session's to kill:
    [kill()] after the adoption resolves at once and sends no kill
    request, closes nothing and removes nothing. *)
Theorem adopted_browser_is_not_killed s :
  truthy_num (port (runner s)) = true ->
  isPortOpen E (w_probes (world s)) = true ->
  chromeProcess (runner s) = None ->
  let s' := run E [DoLaunch; DoKill] s in
  w_trace (world s') = w_trace (world s) /\
  In (w_promises (world s)) (w_resolved (world s')) /\
  w_procs (world s') = w_procs (world s) /\
  w_sigint (world s') = w_sigint (world s).
Proof.
  intros Hport Hopen Hproc s'.
  set (s1 := {| runner := runner s;
                world := set_probes (S (w_probes (world s))) (world s) |}).
  assert (Hs' : s' = snd (kill E s1)).
  { subst s'. unfold run. simpl. rewrite (launch_adopts E s Hport Hopen).
    reflexivity. }
  clearbody s'. subst s'.
  rewrite (kill_untracked E s1 Hproc). simpl.
  split; [reflexivity|]. split; [|split; reflexivity].
  apply in_or_app. right. left. reflexivity.
Qed.

End Waiting.

(** * The theorems at sample sessions *)

(** On a Linux host the caller's flags replace the noise flags in the
    command line of both pre-configured variants. *)
Example launch_variants_drop_injected_flags :
  let E := sample_host "linux" up in
  In "--mute-audio" (NOISE_FLAGS E) /\
  ~ In "--mute-audio" (flags E (launchWithoutNoise_runner E (with_flags ["--foo"]))) /\
  ~ In "--headless" (flags E (launchWithHeadless_runner E (with_flags ["--foo"]))).
Proof.
  simpl. split; [left; reflexivity|].
  split; intros H; repeat (destruct H as [H|H]; [discriminate H|]); exact H.
Qed.

(** C4 as stated fails: on macOS a caller who passes
    [--disable-setuid-sandbox] gets it in the command line. *)
Lemma setuid_flag_off_linux :
  ~ (forall E r,
       In "--disable-setuid-sandbox" (flags E r) <-> platform E = "linux").
Proof.
  intros H.
  destruct (H (sample_host "darwin" up)
              (new_Runner (with_flags ["--disable-setuid-sandbox"])))
    as (H1 & _).
  assert (Hin : In "--disable-setuid-sandbox"
                  (flags (sample_host "darwin" up)
                     (new_Runner (with_flags ["--disable-setuid-sandbox"])))).
  { simpl. right. right. right. right. left. reflexivity. }
  specialize (H1 Hin). discriminate H1.
Qed.

(** C2 as stated fails: with a browser that never answers, [launch()]
    rejects after 11 probes and 5000 ms of sleep, not 5500 ms. *)
Lemma readiness_timeout_is_5000ms :
  let r := launch (sample_host "linux" down) (session no_options) in
  fst r = Throw PortClosed /\
  w_probes (world (snd r)) = 11 /\
  w_elapsed (world (snd r)) = 5000%Z /\
  w_elapsed (world (snd r)) <> 5500%Z.
Proof.
  vm_compute. repeat split. discriminate.
Qed.

(** C7 as stated fails: after one unexpected exit and the restart it
    schedules, the session has two interrupt handlers and has attached two
    exit-watchers. *)
Lemma respawn_registers_handlers_again :
  let s := run (sample_host "linux" up)
             [DoLaunch; DoClose 1000%Z; DoTimer] (session no_options) in
  w_sigint (world s) = 2 /\
  ~ w_sigint (world s) <= 1 /\
  map (fun e => on_close (snd e)) (w_procs (world s)) =
    [[ExitWatcher]; [ExitWatcher]].
Proof.
  vm_compute. repeat split. intros H. inversion H as [|n H1]; inversion H1.
Qed.

Lemma exit_watcher_restart_policy_witness :
  restartUnexpectedChrome (runner running_session) = true /\
  w_timers (world (snd (emit_close 1000 running_session))) =
    [(1000%Z, CbSpawn)] /\
  (let killed := snd (kill (sample_host "linux" up) running_session) in
   restartUnexpectedChrome (runner killed) = false /\
   w_timers (world (snd (emit_close 1000 killed))) = []).
Proof.
  destruct (exit_watcher_restart_policy (sample_host "linux" up)
              running_session 1000) as (Hrestart & Hkill & _).
  destruct (Hrestart {| closed := false; on_close := [ExitWatcher] |}
              eq_refl eq_refl eq_refl eq_refl) as (_ & _ & Ht & _).
  destruct (exit_watcher_restart_policy (sample_host "linux" up)
              (snd (kill (sample_host "linux" up) running_session)) 1000)
    as (_ & _ & Hshut).
  destruct (Hshut eq_refl) as (_ & Ht' & _).
  split; [reflexivity|]. split; [exact Ht|]. split; [exact Hkill | exact Ht'].
Defined.

Lemma readiness_budget_witness :
  (forall i, i < 10 ->
     isPortOpen (sample_host "linux" late)
       (w_probes (world (session no_options)) + i) = false) /\
  fst (launch (sample_host "linux" late) (session no_options)) = Return This /\
  w_probes (world (snd (launch (sample_host "linux" late) (session no_options)))) = 11 /\
  w_elapsed (world (snd (launch (sample_host "linux" late) (session no_options)))) =
    5000%Z.
Proof.
  assert (H : forall i, i < 10 ->
     isPortOpen (sample_host "linux" late)
       (w_probes (world (session no_options)) + i) = false).
  { intros i Hi. simpl. unfold late. apply Nat.leb_gt. lia. }
  split; [exact H|].
  destruct (readiness_budget (sample_host "linux" late) (session no_options) H)
    as (_ & _ & _ & Hlaunch).
  destruct (Hlaunch (session no_options) "/usr/bin/google-chrome"
              (or_introl (conj eq_refl eq_refl)) (conj eq_refl eq_refl)
              eq_refl eq_refl) as (Hl & Hp & He).
  split; [rewrite Hl; reflexivity|]. split; [exact Hp | exact He].
Defined.

Lemma launch_adopt_or_create_witness :
  truthy_num (port (runner (session (on_port 9222)))) = true /\
  launch (sample_host "linux" up) (session (on_port 9222)) =
    (Return ProbeValue,
     {| runner := new_Runner (on_port 9222);
        world := set_probes 1 fresh_world |}) /\
  isPortOpen (sample_host "linux" down)
    (w_probes (world (session (on_port 9222)))) = false /\
  w_tmpdirs (world (snd (launch (sample_host "linux" down)
                           (session (on_port 9222))))) = 1.
Proof.
  split; [reflexivity|]. split; [|split; [reflexivity|]].
  - apply (launch_adopt_or_create (sample_host "linux" up)
             (session (on_port 9222)) eq_refl). reflexivity.
  - destruct (launch_adopt_or_create (sample_host "linux" down)
                (session (on_port 9222)) eq_refl) as (_ & Hfall).
    destruct (Hfall eq_refl) as (_ & Hcount).
    destruct (Hcount "/usr/bin/google-chrome" (conj eq_refl eq_refl)
                eq_refl eq_refl) as (_ & Htmp & _).
    exact Htmp.
Defined.

Lemma kill_twice_is_safe_witness :
  chromeProcess (runner (session no_options)) = None /\
  fst (kill (sample_host "linux" up) (session no_options)) = Return 0 /\
  (let s1 := run (sample_host "linux" up) (map DoClose [1000%Z])
               (snd (kill (sample_host "linux" up) running_session)) in
   fst (kill (sample_host "linux" up) s1) = Return 1 /\
   w_trace (world (snd (kill (sample_host "linux" up) s1))) = w_trace (world s1)).
Proof.
  split; [reflexivity|].
  destruct (kill_twice_is_safe (sample_host "linux" up) (session no_options) [])
    as (Hidle & _).
  destruct (Hidle eq_refl) as (Hret & _).
  destruct (kill_twice_is_safe (sample_host "linux" up) running_session [1000%Z])
    as (_ & Hret2 & _ & Htrace & _).
  split; [exact Hret|]. split; [exact Hret2 | exact Htrace].
Defined.

Lemma prepare_workspace_once_witness :
  supported (platform (sample_host "linux" up)) = true /\
  creations (w_trace (world (snd (prepare (sample_host "linux" up)
                                    (session no_options))))) =
    [ Mkdir "/tmp/chrome-0";
      OpenAppend "/tmp/chrome-0/chrome-out.log" 3;
      OpenAppend "/tmp/chrome-0/chrome-err.log" 4;
      OpenAppend "/tmp/chrome-0/chrome.pid" 5 ] /\
  supported (platform (sample_host "freebsd" up)) = false /\
  (exists e, prepare (sample_host "freebsd" up) (session no_options) =
             (Throw e, session no_options)).
Proof.
  split; [reflexivity|].
  destruct (prepare_workspace_once (sample_host "linux" up) (session no_options))
    as (Hok & _).
  destruct (Hok eq_refl) as (_ & Htrace & _).
  split; [rewrite Htrace; reflexivity|].
  split; [reflexivity|].
  destruct (prepare_workspace_once (sample_host "freebsd" up) (session no_options))
    as (_ & Hbad).
  exact (Hbad eq_refl).
Defined.

Lemma readiness_timeout_keeps_process_witness :
  chromeProcess (runner (session no_options)) = None /\
  (forall i, i <= 10 ->
     isPortOpen (sample_host "linux" down)
       (w_probes (world (session no_options)) + i) = false) /\
  fst (launch (sample_host "linux" down) (session no_options)) = Throw PortClosed /\
  chromeProcess (runner (snd (launch (sample_host "linux" down)
                                (session no_options)))) = Some 1000%Z.
Proof.
  split; [reflexivity|]. split; [intros i Hi; reflexivity|].
  destruct (readiness_timeout_keeps_process (sample_host "linux" down)
              (session no_options) "/usr/bin/google-chrome" eq_refl
              (fun i Hi => eq_refl)) as (_ & Hlaunch).
  destruct (Hlaunch (session no_options) (or_introl (conj eq_refl eq_refl))
              eq_refl eq_refl eq_refl) as (Hret & Hproc & _).
  split; [exact Hret | exact Hproc].
Defined.

Lemma kill_keeps_workspace_guard_witness :
  tmpDirandPidFileReady (runner running_session) = true /\
  (let E := sample_host "linux" once in
   let s2 := snd (emit_close 1000 (snd (kill E running_session))) in
   tmpDirandPidFileReady (runner s2) = true /\
   chromeProcess (runner s2) = None /\
   exists args,
     spawns (w_trace (world (snd (launch E s2)))) =
       spawns (w_trace (world s2)) ++
       [SpawnProc "/usr/bin/google-chrome" args None None 1001] /\
     In "--user-data-dir=/tmp/chrome-0" args).
Proof.
  split; [reflexivity|].
  destruct (kill_keeps_workspace_guard (sample_host "linux" once)
              running_session 1000 eq_refl)
    as (Hready & _ & _ & _ & _ & _ & _ & _ & Hrun).
  destruct (Hrun {| closed := false; on_close := [ExitWatcher] |}
              "/tmp/chrome-0" 3%Z 4%Z "/usr/bin/google-chrome" 5%Z
              eq_refl eq_refl eq_refl eq_refl eq_refl eq_refl
              ltac:(discriminate) eq_refl ltac:(discriminate)
              eq_refl eq_refl eq_refl (fun _ => eq_refl))
    as (Hproc & _ & _ & _ & _ & Hspawn).
  split; [exact Hready|]. split; [exact Hproc | exact Hspawn].
Defined.

Lemma handlers_registered_per_process_witness :
  chromeProcess (runner (run (sample_host "linux" up) [DoLaunch]
                           (session no_options))) = Some 1000%Z /\
  (let s := run (sample_host "linux" up) [DoLaunch] (session no_options) in
   w_sigint (world (snd (spawn (sample_host "linux" up) s))) = w_sigint (world s)).
Proof.
  split; [reflexivity|].
  destruct (handlers_registered_per_process (sample_host "linux" up)
              no_options [DoLaunch]) as (_ & _ & _ & Hspawn).
  destruct (Hspawn 1000%Z eq_refl) as (Hsig & _). exact Hsig.
Defined.

(** * The further properties at sample sessions *)

Lemma kill_never_throws_witness :
  chromeProcess (runner running_session) = Some 1000%Z /\
  killError (refusing_host "linux" up) 1000 = Some "kill ESRCH" /\
  fst (kill (refusing_host "linux" up) running_session) = Return 0 /\
  In (Log Error "chrome could not be killed kill ESRCH")
     (w_trace (world (snd (kill (refusing_host "linux" up) running_session)))).
Proof.
  destruct (kill_never_throws (refusing_host "linux" up) running_session)
    as (Hret & _ & Htracked).
  destruct (Htracked 1000%Z eq_refl) as (_ & Hlog & _).
  split; [reflexivity|]. split; [reflexivity|].
  split; [exact Hret | exact (Hlog "kill ESRCH" eq_refl)].
Defined.

Lemma destroyTmp_twice_witness :
  chromeDataDir (runner running_session) = Some "/tmp/chrome-0" /\
  fst (destroyTmp running_session) = Return tt /\
  cleanups (w_trace (world (snd (destroyTmp (snd (destroyTmp running_session)))))) =
    [CloseFd 3; CloseFd 4; Rimraf "/tmp/chrome-0"; Rimraf "/tmp/chrome-0"].
Proof.
  destruct (destroyTmp_twice running_session "/tmp/chrome-0" eq_refl)
    as (Hret & Htwice).
  split; [reflexivity|]. split; [exact Hret|].
  rewrite Htwice. reflexivity.
Defined.

Lemma interrupt_waits_for_close_witness :
  w_sigint (world running_session) = 1 /\
  exit_code (sigint (sample_host "linux" up) (start running_session)) = None /\
  exit_code (child_closes 1000
               (sigint (sample_host "linux" up) (start running_session))) =
    Some 130%Z.
Proof.
  destruct (interrupt_waits_for_close (sample_host "linux" up) running_session
              1000 {| closed := false; on_close := [ExitWatcher] |}
              "/tmp/chrome-0" 3 4 eq_refl (fun H => H) eq_refl eq_refl eq_refl
              eq_refl eq_refl eq_refl ltac:(discriminate) eq_refl
              ltac:(discriminate)) as (Hwait & Hexit).
  split; [reflexivity|]. split; [exact Hwait|]. rewrite Hexit. reflexivity.
Defined.

Lemma interrupt_exits_at_once_witness :
  2 <= w_sigint (world respawned_session) /\
  exit_code (sigint (sample_host "linux" up) (start respawned_session)) =
    Some 130%Z /\
  cleanups (w_trace (world (state (sigint (sample_host "linux" up)
                                     (start respawned_session))))) = [].
Proof.
  assert (H : 2 <= w_sigint (world respawned_session))
    by (vm_compute; lia).
  destruct (interrupt_exits_at_once (sample_host "linux" up) respawned_session
              (or_introl H)) as (Hexit & _ & Hclean).
  split; [exact H|]. split; [exact Hexit|].
  rewrite Hclean. vm_compute. reflexivity.
Defined.

Lemma launch_unsupported_platform_witness :
  supported (platform (sample_host "freebsd" up)) = false /\
  launch (sample_host "freebsd" up) (session no_options) =
    (Throw (JsError "platform freebsd is not supported"), session no_options).
Proof.
  split; [reflexivity|].
  exact (proj1 (launch_unsupported_platform (sample_host "freebsd" up)
                  (session no_options) (session no_options)
                  (or_introl (conj eq_refl eq_refl)) eq_refl eq_refl)).
Defined.

Lemma launch_no_executable_witness :
  chromeFinder (bare_host "linux" up) "linux" = [] /\
  fst (launch (bare_host "linux" up) (session no_options)) =
    Throw (JsError "no chrome installations found") /\
  tmpDirandPidFileReady
    (runner (snd (launch (bare_host "linux" up) (session no_options)))) = true.
Proof.
  destruct (launch_no_executable (bare_host "linux" up)
              (session no_options) (session no_options)
              (or_introl (conj eq_refl eq_refl)) eq_refl eq_refl eq_refl eq_refl)
    as (Hlaunch & _).
  split; [reflexivity|]. rewrite Hlaunch. split; reflexivity.
Defined.

Lemma launch_resolves_executable_witness :
  resolve_path (sample_host "linux" up) (runner (session no_options)) =
    Some "/usr/bin/google-chrome" /\
  chromePath (runner (snd (launch (sample_host "linux" up) (session no_options)))) =
    Some "/usr/bin/google-chrome".
Proof.
  split; [reflexivity|].
  apply (launch_resolves_executable (sample_host "linux" up)
           (session no_options) (session no_options) "/usr/bin/google-chrome"
           (or_introl (conj eq_refl eq_refl)) (conj eq_refl eq_refl)
           eq_refl eq_refl).
Defined.

Lemma tracked_session_starts_nothing_witness :
  chromeProcess (runner running_session) = Some 1000%Z /\
  spawns (w_trace (world (step (sample_host "linux" down) DoLaunch
                            running_session))) =
    spawns (w_trace (world running_session)).
Proof.
  split; [reflexivity|].
  apply (tracked_session_starts_nothing (sample_host "linux" down)
           running_session 1000 DoLaunch eq_refl (or_introl eq_refl)).
Defined.

Lemma relaunch_does_not_wait_witness :
  fst (launch (sample_host "linux" down) (session no_options)) =
    Throw PortClosed /\
  chromeProcess (runner timed_out_session) = Some 1000%Z /\
  w_elapsed (world (snd (launch (sample_host "linux" down) timed_out_session))) =
    w_elapsed (world timed_out_session) /\
  fst (launch (sample_host "linux" down) timed_out_session) = Return This.
Proof.
  destruct (relaunch_does_not_wait (sample_host "linux" down) timed_out_session
              1000 eq_refl eq_refl eq_refl) as (_ & _ & Helapsed & _).
  split; [reflexivity|]. split; [reflexivity|].
  split; [exact Helapsed | reflexivity].
Defined.

Lemma spawn_settles_port_witness :
  chromeProcess (runner stopped_session) = None /\
  port (runner (snd (spawn (sample_host "linux" up) stopped_session))) =
    Some 9222%Z.
Proof.
  split; [reflexivity|].
  apply (spawn_settles_port (sample_host "linux" up) stopped_session
           "/usr/bin/google-chrome" 5 eq_refl eq_refl eq_refl).
Defined.

Lemma restart_cycle_witness :
  let s := run (sample_host "linux" up) [DoLaunch] (session no_options) in
  let s' := run (sample_host "linux" up) [DoClose 1000%Z; DoTimer] s in
  registered s /\
  chromeProcess (runner s) = Some 1000%Z /\
  chromeProcess (runner s') = Some 1001%Z /\
  written 5 (w_trace (world s')) = "10001001".
Proof.
  intros s s'.
  assert (Hreg : registered s).
  { apply run_registered.
    split; [reflexivity|]. split; [reflexivity|]. constructor. }
  destruct (restart_cycle (sample_host "linux" up) s 1000
              {| closed := false; on_close := [ExitWatcher] |}
              "/usr/bin/google-chrome" 5 Hreg eq_refl eq_refl eq_refl eq_refl
              eq_refl eq_refl eq_refl eq_refl eq_refl)
    as (Hproc & _ & _ & Hwritten & _).
  split; [exact Hreg|]. split; [reflexivity|]. split.
  - fold s' in Hproc. rewrite Hproc. vm_compute. reflexivity.
  - fold s' in Hwritten. rewrite Hwritten. vm_compute. reflexivity.
Defined.

Lemma kill_leaves_pending_restart_witness :
  chromeProcess (runner exited_session) = None /\
  w_timers (world exited_session) = [(1000%Z, CbSpawn)] /\
  chromeProcess (runner (run (sample_host "linux" up) [DoKill; DoTimer]
                           exited_session)) = Some 1001%Z.
Proof.
  split; [reflexivity|]. split; [reflexivity|].
  apply (kill_leaves_pending_restart (sample_host "linux" up) exited_session
           1000 [] "/usr/bin/google-chrome" 5 eq_refl eq_refl eq_refl eq_refl).
Defined.

Lemma configuration_is_stable_witness :
  truthy_num (port (runner running_session)) = true /\
  port (runner (run (sample_host "linux" up)
                  [DoClose 1000%Z; DoTimer; DoKill; DoLaunch] running_session)) =
    Some 9222%Z.
Proof.
  split; [reflexivity|].
  destruct (configuration_is_stable (sample_host "linux" up) running_session
              [DoClose 1000%Z; DoTimer; DoKill; DoLaunch]) as (_ & Hport & _).
  exact (Hport eq_refl).
Defined.

Lemma pid_file_is_never_closed_witness :
  pidFile (runner (run (sample_host "linux" up)
                     [DoLaunch; DoKill; DoClose 1000%Z] (session no_options))) =
    Some 5%Z /\
  ~ In (CloseFd 5)
       (w_trace (world (run (sample_host "linux" up)
                          [DoLaunch; DoKill; DoClose 1000%Z]
                          (session no_options)))).
Proof.
  split; [reflexivity|].
  apply (pid_file_is_never_closed (sample_host "linux" up) no_options
           [DoLaunch; DoKill; DoClose 1000%Z] 5 eq_refl).
Defined.

Lemma unexpected_exit_always_restarts_witness :
  restartUnexpectedChrome
    (runner (run (sample_host "linux" up) [DoLaunch] (session no_options))) =
    true /\
  w_timers (world (snd (emit_close 1000
                          (run (sample_host "linux" up) [DoLaunch]
                             (session no_options))))) =
    [(1000%Z, CbSpawn)].
Proof.
  split; [reflexivity|].
  apply (unexpected_exit_always_restarts (sample_host "linux" up) no_options
           [DoLaunch] 1000 eq_refl eq_refl).
Defined.

Lemma adopted_browser_is_not_killed_witness :
  truthy_num (port (runner (session (on_port 9222)))) = true /\
  w_trace (world (run (sample_host "linux" up) [DoLaunch; DoKill]
                    (session (on_port 9222)))) = [].
Proof.
  split; [reflexivity|].
  apply (adopted_browser_is_not_killed (sample_host "linux" up)
           (session (on_port 9222)) eq_refl eq_refl eq_refl).
Defined.
